(** * clip_blip_model.py: dataset, classifier head, split sizes and loops

    A shallow embedding of [src/clip_blip_model.py].  Python exceptions are
    an error monad; text is a [string] of code points below 256; float32
    tensor entries and Python floats are [spec_float] values (Rocq's
    IEEE-754 specification) at precision 24 and 53; collaborators that live
    outside the script (the file system, the path module, the pretrained
    encoders, the loss, the optimiser, the random generator) are the fields of
    two interfaces, [Platform] and [Torch]. *)

From Stdlib Require Import ZArith List Ascii String SpecFloat.
From stdpp Require Import gmap strings list fin_maps.

Local Open Scope Z_scope.

(* ===================================================================== *)
(** ** Exceptions *)
(* ===================================================================== *)

Inductive exn : Type :=
| IndexError
| ValueError
| TypeError
| ZeroDivisionError
| OverflowError
| RuntimeError
| AttributeError
| OSError.

Inductive result (A : Type) : Type :=
| Ok (a : A)
| Raise (e : exn).
Arguments Ok {A} a.
Arguments Raise {A} e.

Definition bind {A B : Type} (m : result A) (k : A -> result B) : result B :=
  match m with
  | Ok a => k a
  | Raise e => Raise e
  end.

#[global] Instance result_ret : MRet result := @Ok.
#[global] Instance result_bind : MBind result := fun A B k m => bind m k.

(** [for x in xs: acc = body(acc, x)], stopping at the first exception. *)
Fixpoint for_each {A S : Type} (body : S -> A -> result S) (xs : list A) (s : S)
  : result S :=
  match xs with
  | [] => Ok s
  | x :: xs' => s' ← body s x; for_each body xs' s'
  end.

(** [[f(x) for x in xs]]. *)
Fixpoint map_result {A B : Type} (f : A -> result B) (xs : list A)
  : result (list B) :=
  match xs with
  | [] => Ok []
  | x :: xs' => y ← f x; ys ← map_result f xs'; Ok (y :: ys)
  end.

(** Python's [seq[idx]] on a list: negative indices count from the end. *)
Definition list_getitem {A : Type} (l : list A) (idx : Z) : result A :=
  let n := Z.of_nat (length l) in
  let i := if idx <? 0 then idx + n else idx in
  if (0 <=? i) && (i <? n) then
    match l !! Z.to_nat i with
    | Some x => Ok x
    | None => Raise IndexError
    end
  else Raise IndexError.

(* ===================================================================== *)
(** ** Strings: [str.strip()] and [str.split()] *)
(* ===================================================================== *)

(** [str.isspace] on one code point below 256: TAB..CR, FS..US, space,
    NEL and NBSP. *)
Definition isspace (c : ascii) : bool :=
  let n := N_of_ascii c in
  ((9 <=? n) && (n <=? 13) || (28 <=? n) && (n <=? 31) || (n =? 32)
   || (n =? 133) || (n =? 160))%N.

Fixpoint lstrip (s : string) : string :=
  match s with
  | EmptyString => EmptyString
  | String c s' => if isspace c then lstrip s' else s
  end.

Fixpoint rstrip (s : string) : string :=
  match s with
  | EmptyString => EmptyString
  | String c s' =>
      match rstrip s' with
      | EmptyString => if isspace c then EmptyString else String c EmptyString
      | r => String c r
      end
  end.

Definition strip (s : string) : string := rstrip (lstrip s).

(** [split_go s word]: [word] holds the characters of the token being read. *)
Fixpoint split_go (s : string) (word : string) : list string :=
  match s with
  | EmptyString => match word with EmptyString => [] | _ => [word] end
  | String c s' =>
      if isspace c then
        match word with
        | EmptyString => split_go s' EmptyString
        | _ => word :: split_go s' EmptyString
        end
      else split_go s' (word +:+ String c EmptyString)
  end.

(** [s.split()] with no separator: the maximal runs of non-space characters. *)
Definition split (s : string) : list string := split_go s EmptyString.

(** [parts[1:]]. *)
Definition slice_from_1 {A : Type} (l : list A) : list A := drop 1 l.

(* ===================================================================== *)
(** ** Floats and tensors *)
(* ===================================================================== *)

(** An entry of a [torch.float32] tensor. *)
Definition float32 : Type := spec_float.
(** A Python [float] (binary64). *)
Definition py_float : Type := spec_float.

Definition f32_zero : float32 := S754_zero false.
Definition f32_one : float32 := S754_finite false 8388608 (-23).
Definition f32_half : float32 := S754_finite false 8388608 (-24).
Definition f32_mul : float32 -> float32 -> float32 := SFmul 24 128.
Definition f32_add : float32 -> float32 -> float32 := SFadd 24 128.
Definition f32_gt (x y : float32) : bool := SFltb y x.

(** A contiguous tensor: its shape and its entries in row-major order. *)
Record Tensor : Type := mkTensor { shape : list nat; data : list float32 }.

Definition numel (sh : list nat) : nat := foldr Nat.mul 1%nat sh.

(** [torch.zeros(n)] for an integer [n]. *)
Definition torch_zeros (n : Z) : result Tensor :=
  if n <? 0 then Raise RuntimeError
  else Ok (mkTensor [Z.to_nat n] (replicate (Z.to_nat n) f32_zero)).

(** [t[k] = v] for an integer [k] and a number [v]: the [k]-th slice along
    the first dimension is filled with [v]. *)
Definition tensor_setitem (t : Tensor) (k : Z) (v : float32) : result Tensor :=
  match shape t with
  | [] => Raise IndexError
  | n :: rest =>
      let i := if k <? 0 then k + Z.of_nat n else k in
      if (0 <=? i) && (i <? Z.of_nat n) then
        let w := numel rest in
        let lo := (Z.to_nat i * w)%nat in
        Ok (mkTensor (shape t)
              (take lo (data t) ++ replicate w v ++ drop (lo + w)%nat (data t)))
      else Raise IndexError
  end.

(* ===================================================================== *)
(** ** Python values that travel through the dataset and the loaders *)
(* ===================================================================== *)

(** A decoded image in RGB mode. *)
Record Image : Type := mkImage {
  im_width : nat;
  im_height : nat;
  im_pixels : list (N * N * N)
}.

#[warnings="-register-all"]
Inductive pyobj : Type :=
| PyImage (im : Image)
| PyTensor (t : Tensor)
| PyTuple (items : list pyobj)
| PyList (items : list pyobj).

(** What the script takes from the operating system: [os.path.join] of the
    platform's path module, and [Image.open(path).convert("RGB")] on the
    current file system. *)
Class Platform : Type := {
  os_path_join : string -> string -> string;
  Image_open_RGB : string -> result Image;
  (** the lines that iterating [open(path, 'r')] yields *)
  read_lines : string -> result (list string)
}.

(* ===================================================================== *)
(** ** [class MultiLabelImageDataset] *)
(* ===================================================================== *)

Record MultiLabelImageDataset : Type := mkDataset {
  images_path : list string;
  images_labels : list (list string);
  transform : option (Image -> result pyobj);
  num_classes : Z;
  label_map : gmap string Z
}.

(** The literal of line 38. *)
Definition label_map_literal : gmap string Z :=
  <["fire" := 0]> (<["smoke" := 1]> (<["cloud" := 2]> (<["none" := 3]> ∅))).

(** One round of the loop of lines 42-50 on the object being built. *)
Definition init_line `{Platform} (images_dir : string)
    (self : MultiLabelImageDataset) (line : string)
  : result MultiLabelImageDataset :=
  let parts := split (strip line) in
  img_name ← list_getitem parts 0;
  let labels := slice_from_1 parts in
  let img_path := os_path_join images_dir img_name in
  Ok (mkDataset (images_path self ++ [img_path])
                (images_labels self ++ [labels])
                (transform self) (num_classes self) (label_map self)).

(** [__init__]; [lines] is what iterating the opened label file yields. *)
Definition MultiLabelImageDataset_init `{Platform} (images_dir : string)
    (lines : list string) (transform : option (Image -> result pyobj))
    (num_classes : Z) : result MultiLabelImageDataset :=
  for_each (init_line images_dir) lines
    (mkDataset [] [] transform num_classes label_map_literal).

(** [__len__]. *)
Definition MultiLabelImageDataset_len (self : MultiLabelImageDataset) : nat :=
  length (images_path self).

(** Lines 63-64: one round of the loop over the sample's labels. *)
Definition mark_label (self : MultiLabelImageDataset) (label_vector : Tensor)
    (label : string) : result Tensor :=
  match label_map self !! label with
  | Some k => tensor_setitem label_vector k f32_one
  | None => Ok label_vector
  end.

(** Lines 61-64. *)
Definition make_label_vector (self : MultiLabelImageDataset)
    (labels : list string) : result Tensor :=
  label_vector ← torch_zeros (num_classes self);
  for_each (mark_label self) labels label_vector.

(** [__getitem__]. *)
Definition MultiLabelImageDataset_getitem `{Platform}
    (self : MultiLabelImageDataset) (idx : Z) : result pyobj :=
  img_path ← list_getitem (images_path self) idx;
  labels ← list_getitem (images_labels self) idx;
  image ← Image_open_RGB img_path;
  label_vector ← make_label_vector self labels;
  image' ← match transform self with
            | Some f => f image
            | None => Ok (PyImage image)
            end;
  Ok (PyTuple [image'; PyTensor label_vector]).

(** [posixpath.join] of two components, the path module of a POSIX host. *)
Definition posixpath_join (a b : string) : string :=
  match b with
  | String "/" _ => b
  | _ =>
      match a with
      | EmptyString => b
      | _ => if String.rev a is String "/" _ then a +:+ b else a +:+ "/" +:+ b
      end
  end.

(** A host whose images directory holds 2x1 images under every name. *)
#[local] Instance posix_host : Platform := {|
  os_path_join := posixpath_join;
  Image_open_RGB := fun _ => Ok (mkImage 2 1 [(255, 0, 0); (0, 0, 255)]%N);
  read_lines := fun _ => Raise OSError
|}.

(* ===================================================================== *)
(** ** Elementwise product with broadcasting: [a * b] on tensors *)
(* ===================================================================== *)

Definition broadcast_dim (da db : nat) : option nat :=
  if (da =? db)%nat then Some da
  else if (da =? 1)%nat then Some db
  else if (db =? 1)%nat then Some da
  else None.

(** Shapes are aligned at their last dimension: both lists are reversed. *)
Fixpoint broadcast_rev (ra rb : list nat) : option (list nat) :=
  match ra, rb with
  | [], _ => Some rb
  | _, [] => Some ra
  | da :: ra', db :: rb' =>
      match broadcast_dim da db, broadcast_rev ra' rb' with
      | Some d, Some r => Some (d :: r)
      | _, _ => None
      end
  end.

Definition broadcast_shapes (sa sb : list nat) : option (list nat) :=
  match broadcast_rev (rev sa) (rev sb) with
  | Some r => Some (rev r)
  | None => None
  end.

(** Row-major offset, in a tensor of (reversed) shape [ra], of the entry that
    is read for flat position [k] of the (reversed) result shape [rs]. *)
Fixpoint offset_rev (rs ra : list nat) (k stride : nat) : nat :=
  match rs, ra with
  | d :: rs', da :: ra' =>
      ((if (da =? 1)%nat then 0 else (k mod d) * stride)
       + offset_rev rs' ra' (k / d) (stride * da))%nat
  | _, _ => 0%nat
  end.

Definition broadcast_get (s : list nat) (t : Tensor) (k : nat) : float32 :=
  nth (offset_rev (rev s) (rev (shape t)) k 1) (data t) f32_zero.

Definition torch_mul (a b : Tensor) : result Tensor :=
  match broadcast_shapes (shape a) (shape b) with
  | None => Raise RuntimeError
  | Some s =>
      Ok (mkTensor s
            (map (fun k => f32_mul (broadcast_get s a k) (broadcast_get s b k))
                 (seq 0 (numel s))))
  end.

(* ===================================================================== *)
(** ** [nn.Linear], [nn.ReLU] and [class Smoke_model] *)
(* ===================================================================== *)

(** [weight] has [out_features] rows of [in_features] entries. *)
Record Linear : Type := mkLinear {
  in_features : nat;
  out_features : nat;
  weight : list (list float32);
  bias : list float32
}.

(** [nn.Linear(in_features, out_features)]; the initial parameters are the
    next values of the generator's stream [gen], from position [pos]. *)
Definition nn_Linear (gen : nat -> float32) (pos : nat)
    (in_features out_features : nat) : Linear :=
  mkLinear in_features out_features
    (map (fun j => map (fun i => gen (pos + j * in_features + i)%nat)
                       (seq 0 in_features))
         (seq 0 out_features))
    (map (fun j => gen (pos + out_features * in_features + j)%nat)
         (seq 0 out_features)).

(** Sum of products, accumulated from the first entry on. *)
Definition dot (x w : list float32) : float32 :=
  fold_left (fun acc xw => f32_add acc (f32_mul (fst xw) (snd xw)))
            (zip x w) f32_zero.

Definition linear_row (l : Linear) (x : list float32) : list float32 :=
  zip_with (fun w b => f32_add (dot x w) b) (weight l) (bias l).

(** The first [count] consecutive rows of width [n] of [l]. *)
Fixpoint rows {A : Type} (n count : nat) (l : list A) : list (list A) :=
  match count with
  | O => []
  | S c => take n l :: rows n c (drop n l)
  end.

(** [l(x)]: the last dimension of [x] is mapped through [x @ W^T + b]. *)
Definition Linear_forward (l : Linear) (x : Tensor) : result Tensor :=
  match rev (shape x) with
  | [] => Raise RuntimeError
  | d :: lead_rev =>
      if (d =? in_features l)%nat then
        let lead := rev lead_rev in
        Ok (mkTensor (lead ++ [out_features l])
              (concat (map (linear_row l) (rows d (numel lead) (data x)))))
      else Raise RuntimeError
  end.

(** [max(x, 0)] entry by entry; a NaN stays a NaN, a zero result is [+0]. *)
Definition relu_entry (x : float32) : float32 :=
  match x with
  | S754_nan => S754_nan
  | _ => if f32_gt x f32_zero then x else f32_zero
  end.

Definition nn_ReLU (x : Tensor) : Tensor :=
  mkTensor (shape x) (map relu_entry (data x)).

Record Smoke_model : Type := mkSmoke_model { l1 : Linear; l2 : Linear }.

(** [Smoke_model.__init__]. *)
Definition Smoke_model_init (gen : nat -> float32)
    (hidden_dim num_classes : nat) : Smoke_model :=
  mkSmoke_model
    (nn_Linear gen 0 512 hidden_dim)
    (nn_Linear gen (hidden_dim * 512 + hidden_dim) hidden_dim num_classes).

(** [Smoke_model.forward]. *)
Definition Smoke_model_forward (self : Smoke_model)
    (text_embedding image_embedding : Tensor) : result Tensor :=
  combined_embedding ← torch_mul text_embedding image_embedding;
  output ← Linear_forward (l1 self) combined_embedding;
  let output := nn_ReLU output in
  Linear_forward (l2 self) output.

(** Lines 103-104. *)
Definition hidden_dim : nat := 256.
Definition script_num_classes : nat := 4.

(* ===================================================================== *)
(** ** Python floats and the split sizes of lines 92-94 *)
(* ===================================================================== *)

Definition f64_mul : py_float -> py_float -> py_float := SFmul 53 1024.
Definition f64_add : py_float -> py_float -> py_float := SFadd 53 1024.
Definition f64_div : py_float -> py_float -> py_float := SFdiv 53 1024.

(** The literals [0.7] and [0.15]: the binary64 values nearest to 7/10 and
    to 15/100. *)
Definition lit_0_7 : py_float := S754_finite false 6305039478318694 (-53).
Definition lit_0_15 : py_float := S754_finite false 5404319552844595 (-55).
Definition lit_0_0 : py_float := S754_zero false.

(** [float(n)] for an integer [n]. *)
Definition float_of_int (n : Z) : result py_float :=
  match binary_normalize 53 1024 n 0 false with
  | S754_infinity _ => Raise OverflowError
  | x => Ok x
  end.

(** [int(x)]: truncation towards zero. *)
Definition int_of_float (x : py_float) : result Z :=
  match x with
  | S754_zero _ => Ok 0
  | S754_finite s m e =>
      Ok (cond_Zopp s (if 0 <=? e then Z.pos m * 2 ^ e
                       else Z.pos m / 2 ^ (- e)))
  | S754_infinity _ => Raise OverflowError
  | S754_nan => Raise ValueError
  end.

(** [x * n] for a float [x] and an integer [n]. *)
Definition float_mul_int (x : py_float) (n : Z) : result py_float :=
  y ← float_of_int n; Ok (f64_mul x y).

(** [x / n] for a float [x] and an integer [n]. *)
Definition float_truediv_int (x : py_float) (n : Z) : result py_float :=
  if n =? 0 then Raise ZeroDivisionError
  else y ← float_of_int n; Ok (f64_div x y).

(** [int(0.7 * len(dataset))]. *)
Definition train_size (len_dataset : nat) : result Z :=
  x ← float_mul_int lit_0_7 (Z.of_nat len_dataset); int_of_float x.

(** [int(0.15 * len(dataset))]. *)
Definition val_size (len_dataset : nat) : result Z :=
  x ← float_mul_int lit_0_15 (Z.of_nat len_dataset); int_of_float x.

(** Lines 92-94: [(train_size, val_size, test_size)]. *)
Definition split_sizes (len_dataset : nat) : result (Z * Z * Z) :=
  train ← train_size len_dataset;
  val ← val_size len_dataset;
  let test := Z.of_nat len_dataset - train - val in
  Ok (train, val, test).

(* ===================================================================== *)
(** ** What the script takes from the tensor library *)
(* ===================================================================== *)

Class Torch : Type := {
  (** the values the default generator hands to parameter initialisation *)
  init_stream : nat -> float32;
  (** [randperm draw n i]: entry [i] of the [draw]-th permutation of [n] *)
  randperm : nat -> nat -> nat -> nat;
  (** [torch.sigmoid] on one entry *)
  sigmoid : float32 -> float32;
  (** [clip_model.encode_text(t).to(torch.float32)] and its image twin *)
  encode_text : Tensor -> result Tensor;
  encode_image : Tensor -> result Tensor;
  (** [nn.BCEWithLogitsLoss()(outputs, labels)], a tensor with one entry *)
  criterion : Tensor -> Tensor -> result Tensor;
  (** Adam: its state, and [zero_grad(); loss.backward(); step()] *)
  OptState : Type;
  Adam_init : Smoke_model -> OptState;
  Adam_step : OptState -> Smoke_model -> Tensor -> Tensor -> Tensor ->
              OptState * Smoke_model
}.

(** [x.to(device)]: tensors have the method, lists and images do not. *)
Definition to_device (x : pyobj) : result Tensor :=
  match x with
  | PyTensor t => Ok t
  | _ => Raise AttributeError
  end.

(** [t.item()]: the single entry of [t] as a Python float. *)
Definition tensor_item (t : Tensor) : result py_float :=
  match data t with
  | [x] =>
      Ok match x with
         | S754_finite s m e => binary_normalize 53 1024 (cond_Zopp s (Z.pos m)) e s
         | _ => x
         end
  | _ => Raise RuntimeError
  end.

(* ===================================================================== *)
(** ** [random_split], [Subset] and [DataLoader] *)
(* ===================================================================== *)

Record Subset : Type := mkSubset {
  sub_dataset : MultiLabelImageDataset;
  sub_indices : list Z
}.

Definition Subset_len (s : Subset) : nat := length (sub_indices s).

Definition Subset_getitem `{Platform} (s : Subset) (idx : Z) : result pyobj :=
  i ← list_getitem (sub_indices s) idx;
  MultiLabelImageDataset_getitem (sub_dataset s) i.

(** Consecutive slices of [perm] of the given lengths. *)
Fixpoint slices (perm : list Z) (lengths : list Z) : list (list Z) :=
  match lengths with
  | [] => []
  | n :: lengths' =>
      take (Z.to_nat n) perm :: slices (drop (Z.to_nat n) perm) lengths'
  end.

(** [random_split(dataset, lengths)] with integer lengths. *)
Definition random_split `{Torch} (dataset : MultiLabelImageDataset)
    (lengths : list Z) : result (list Subset) :=
  let n := MultiLabelImageDataset_len dataset in
  if foldr Z.add 0 lengths =? Z.of_nat n then
    let perm := map (fun i => Z.of_nat (randperm 0 n i)) (seq 0 n) in
    Ok (map (mkSubset dataset) (slices perm lengths))
  else Raise ValueError.

(** A loader once built: the three arguments it keeps. *)
Record DataLoader : Type := mkDataLoader {
  dl_dataset : Subset;
  dl_batch_size : nat;
  dl_shuffle : bool
}.

(** [DataLoader(dataset, batch_size=..., shuffle=...)] (lines 98-100).  With
    [shuffle] the constructor builds a [RandomSampler], which raises
    [ValueError] on an empty dataset; the [BatchSampler] it builds next
    raises [ValueError] for a batch size that is not positive. *)
Definition DataLoader_init (dataset : Subset) (batch_size : nat)
    (shuffle : bool) : result DataLoader :=
  if shuffle && (Subset_len dataset =? 0)%nat then Raise ValueError
  else if (batch_size =? 0)%nat then Raise ValueError
  else Ok (mkDataLoader dataset batch_size shuffle).

(** [len(loader)]: the number of batches, the last one possibly short. *)
Definition DataLoader_len (dl : DataLoader) : nat :=
  ((Subset_len (dl_dataset dl) + dl_batch_size dl - 1) / dl_batch_size dl)%nat.

(** Consecutive groups of [size] entries; [fuel] bounds the number of groups. *)
Fixpoint batched {A : Type} (size fuel : nat) (l : list A) : list (list A) :=
  match fuel, l with
  | O, _ | _, [] => []
  | S fuel', _ => take size l :: batched size fuel' (drop size l)
  end.

(** The index batches of pass number [draw] over the loader. *)
Definition DataLoader_batches `{Torch} (dl : DataLoader) (draw : nat)
  : list (list nat) :=
  let n := Subset_len (dl_dataset dl) in
  let order := if dl_shuffle dl then map (randperm draw n) (seq 0 n)
               else seq 0 n in
  batched (dl_batch_size dl) n order.

(** [torch.stack(batch, 0)]. *)
Fixpoint stack_data (sh : list nat) (batch : list pyobj)
  : result (list float32) :=
  match batch with
  | [] => Ok []
  | PyTensor t :: batch' =>
      if decide (shape t = sh) then
        d ← stack_data sh batch'; Ok (data t ++ d)
      else Raise RuntimeError
  | _ :: _ => Raise TypeError
  end.

Definition torch_stack (batch : list pyobj) : result pyobj :=
  match batch with
  | PyTensor t :: _ =>
      d ← stack_data (shape t) batch;
      Ok (PyTensor (mkTensor (length batch :: shape t) d))
  | _ => Raise TypeError
  end.

(** The columns of [batch] (its transposition by [zip]) after the check that
    every sample is a sequence of [width] items. *)
Fixpoint transposed (width : nat) (batch : list pyobj)
  : result (list (list pyobj)) :=
  match batch with
  | [] => Ok (replicate width [])
  | (PyTuple items | PyList items) :: batch' =>
      if (length items =? width)%nat then
        cols ← transposed width batch';
        Ok (zip_with cons items cols)
      else Raise RuntimeError
  | _ :: _ => Raise TypeError
  end.

(** [collate elem rest] collates the batch [elem :: rest] by the type of its
    first sample: tensors are stacked, sequences are collated item by item
    into a list, images are rejected. *)
Fixpoint collate (elem : pyobj) (rest : list pyobj) {struct elem}
  : result pyobj :=
  match elem with
  | PyImage _ => Raise TypeError
  | PyTensor _ => torch_stack (elem :: rest)
  | PyTuple items | PyList items =>
      cols ← transposed (length items) rest;
      out ← (fix each (items : list pyobj) (cols : list (list pyobj))
               : result (list pyobj) :=
               match items, cols with
               | item :: items', col :: cols' =>
                   y ← collate item col;
                   ys ← each items' cols';
                   Ok (y :: ys)
               | _, _ => Ok []
               end) items cols;
      Ok (PyList out)
  end.

(** [default_collate(batch)]; its first step reads [batch[0]]. *)
Definition default_collate (batch : list pyobj) : result pyobj :=
  match batch with
  | [] => Raise IndexError
  | elem :: rest => collate elem rest
  end.

(** The batch the loader yields for the indices [idxs]. *)
Definition DataLoader_fetch `{Platform} (dl : DataLoader) (idxs : list nat)
  : result pyobj :=
  samples ← map_result (fun i => Subset_getitem (dl_dataset dl) (Z.of_nat i))
                       idxs;
  default_collate samples.

(** Iterating a value, as a [for] statement or an unpacking does. *)
Definition iterate (v : pyobj) : result (list pyobj) :=
  match v with
  | PyTuple items | PyList items => Ok items
  | PyTensor t =>
      match shape t with
      | [] => Raise TypeError
      | n :: rest =>
          Ok (map PyTensor (map (mkTensor rest) (rows (numel rest) n (data t))))
      end
  | PyImage _ => Raise TypeError
  end.

(** [a, b, c = v]. *)
Definition unpack3 (v : pyobj) : result (pyobj * pyobj * pyobj) :=
  items ← iterate v;
  match items with
  | [a; b; c] => Ok (a, b, c)
  | _ => Raise ValueError
  end.

(* ===================================================================== *)
(** ** The script: data loading, training loop, evaluation loop *)
(* ===================================================================== *)

Definition images_dir : string :=
  "C:/Users/User/Documents/Kuan-wu Chu/final_smoke_datasets".
Definition labels_file : string :=
  "C:/Users/User/Documents/Kuan-wu Chu/final_smoke_datasets_label/labels.txt".
Definition batch_size : nat := 16.
Definition num_epochs : nat := 10.

(** Lines 117-133: one round of the training loop on the batch [idxs]. *)
Definition train_batch `{Platform} `{Torch} (train_loader : DataLoader)
    (st : Smoke_model * OptState * py_float) (idxs : list nat)
  : result (Smoke_model * OptState * py_float) :=
  let '(smoke_model, optimizer, train_loss) := st in
  batch ← DataLoader_fetch train_loader idxs;
  '(images, text_tokens, labels) ← unpack3 batch;
  images ← to_device images;
  text_tokens ← to_device text_tokens;
  labels ← to_device labels;
  text_embedding ← encode_text text_tokens;
  image_embedding ← encode_image images;
  outputs ← Smoke_model_forward smoke_model text_embedding image_embedding;
  loss ← criterion outputs labels;
  let '(optimizer, smoke_model) :=
    Adam_step optimizer smoke_model text_embedding image_embedding labels in
  loss_item ← tensor_item loss;
  Ok (smoke_model, optimizer, f64_add train_loss loss_item).

(** Lines 114-136: one epoch; the printed average loss is appended to
    [stdout]. *)
Definition train_epoch `{Platform} `{Torch} (train_loader : DataLoader)
    (st : Smoke_model * OptState * list py_float) (epoch : nat)
  : result (Smoke_model * OptState * list py_float) :=
  let '(smoke_model, optimizer, stdout) := st in
  '(smoke_model, optimizer, train_loss) ←
    for_each (train_batch train_loader)
             (DataLoader_batches train_loader (S epoch))
             (smoke_model, optimizer, lit_0_0);
  avg_train_loss ←
    float_truediv_int train_loss (Z.of_nat (DataLoader_len train_loader));
  Ok (smoke_model, optimizer, stdout ++ [avg_train_loss]).

(** Lines 113-136. *)
Definition training_loop `{Platform} `{Torch} (train_loader : DataLoader)
    (st : Smoke_model * OptState * list py_float)
  : result (Smoke_model * OptState * list py_float) :=
  for_each (train_epoch train_loader) (seq 0 num_epochs) st.

(** A boolean tensor, the result of a comparison. *)
Record BoolTensor : Type := mkBoolTensor {
  bshape : list nat;
  bdata : list bool
}.

(** Line 152: [torch.sigmoid(outputs) > 0.5]. *)
Definition predict `{Torch} (outputs : Tensor) : BoolTensor :=
  mkBoolTensor (shape outputs)
               (map (fun logit => f32_gt (sigmoid logit) f32_half)
                    (data outputs)).

(** The entries of a tensor of shape [n :: rest], one list per first index
    (what [list.extend] receives from [t.cpu().numpy()]). *)
Definition first_axis {A : Type} (sh : list nat) (d : list A)
  : result (list (list A)) :=
  match sh with
  | [] => Raise TypeError
  | n :: rest => Ok (rows (numel rest) n d)
  end.

(** Lines 143-155: one round of the evaluation loop on the batch [idxs]. *)
Definition eval_batch `{Platform} `{Torch} (smoke_model : Smoke_model)
    (test_loader : DataLoader)
    (acc : list (list float32) * list (list bool)) (idxs : list nat)
  : result (list (list float32) * list (list bool)) :=
  let '(all_labels, all_predictions) := acc in
  batch ← DataLoader_fetch test_loader idxs;
  '(images, text_tokens, labels) ← unpack3 batch;
  images ← to_device images;
  text_tokens ← to_device text_tokens;
  labels ← to_device labels;
  text_embedding ← encode_text text_tokens;
  image_embedding ← encode_image images;
  outputs ← Smoke_model_forward smoke_model text_embedding image_embedding;
  let predictions := predict outputs in
  label_rows ← first_axis (shape labels) (data labels);
  prediction_rows ← first_axis (bshape predictions) (bdata predictions);
  Ok (all_labels ++ label_rows, all_predictions ++ prediction_rows).

(** Lines 139-155. *)
Definition evaluation_loop `{Platform} `{Torch} (smoke_model : Smoke_model)
    (test_loader : DataLoader)
  : result (list (list float32) * list (list bool)) :=
  for_each (eval_batch smoke_model test_loader)
           (DataLoader_batches test_loader 0) ([], []).

(** Lines 91-155, up to the metrics: the printed losses, the labels and
    the predictions. *)
Definition script `{Platform} `{Torch}
  : result (list py_float * list (list float32) * list (list bool)) :=
  lines ← read_lines labels_file;
  dataset ← MultiLabelImageDataset_init images_dir lines None 4;
  '(train_size, val_size, test_size) ←
     split_sizes (MultiLabelImageDataset_len dataset);
  parts ← random_split dataset [train_size; val_size; test_size];
  match parts with
  | [train_dataset; val_dataset; test_dataset] =>
      train_loader ← DataLoader_init train_dataset batch_size true;
      val_loader ← DataLoader_init val_dataset batch_size false;
      test_loader ← DataLoader_init test_dataset batch_size false;
      let smoke_model :=
        Smoke_model_init init_stream hidden_dim script_num_classes in
      '(smoke_model, _, stdout) ←
         training_loop train_loader (smoke_model, Adam_init smoke_model, []);
      '(all_labels, all_predictions) ←
         evaluation_loop smoke_model test_loader;
      Ok (stdout, all_labels, all_predictions)
  | _ => Raise ValueError
  end.

(* ===================================================================== *)
(** ** Concrete collaborators, for running the model *)
(* ===================================================================== *)

(** A preprocessing pipeline: the pixels as a tensor of shape [h; w; 3]. *)
Definition pixels_to_tensor (im : Image) : result pyobj :=
  let f := fun v : N => binary_normalize 24 128 (Z.of_N v) 0 false in
  Ok (PyTensor
        (mkTensor [im_height im; im_width im; 3%nat]
           (flat_map (fun p => [f (fst (fst p)); f (snd (fst p)); f (snd p)])
                     (im_pixels im)))).

(** The tangent of the logistic function at 0: [x / 4 + 1 / 2]. *)
Definition sigmoid_tangent (x : float32) : float32 :=
  f32_add (f32_mul (S754_finite false 8388608 (-25)) x) f32_half.

(** Encoders that map every sample to the all-ones embedding, a constant
    loss and an optimiser that leaves the parameters alone. *)
#[local] Instance toy_torch : Torch := {|
  init_stream := fun _ => f32_half;
  randperm := fun _ _ i => i;
  sigmoid := sigmoid_tangent;
  encode_text := fun t =>
    Ok (mkTensor [hd 0%nat (shape t); 512%nat]
                 (replicate (hd 0%nat (shape t) * 512) f32_one));
  encode_image := fun t =>
    Ok (mkTensor [hd 0%nat (shape t); 512%nat]
                 (replicate (hd 0%nat (shape t) * 512) f32_one));
  criterion := fun _ _ => Ok (mkTensor [] [f32_one]);
  OptState := unit;
  Adam_init := fun _ => tt;
  Adam_step := fun o m _ _ _ => (o, m)
|}.

Definition sample_lines : list string :=
  ["img1.jpg fire smoke" +:+ String "010" ""; "img2.jpg none" +:+ String "010" "";
   "img3.jpg" +:+ String "010" ""; "img4.jpg  smog fire	fire"].

Definition sample_loader (tr : option (Image -> result pyobj)) : result DataLoader :=
  ds ← MultiLabelImageDataset_init "data" sample_lines tr 4;
  Ok (mkDataLoader (mkSubset ds [3; 1; 0]) 2 false).


Definition sample_dataset : MultiLabelImageDataset :=
  mkDataset ["data/img1.jpg"; "data/img2.jpg"; "data/img3.jpg"; "data/img4.jpg"]
            [["fire"; "smoke"]; ["none"]; []; ["smog"; "fire"; "fire"]]
            None 4 label_map_literal.

(** The same samples behind a preprocessing pipeline, and a loader on them. *)
Definition sample_tensor_dataset : MultiLabelImageDataset :=
  mkDataset (images_path sample_dataset) (images_labels sample_dataset)
            (Some pixels_to_tensor) 4 label_map_literal.

Definition sample_tensor_loader : DataLoader :=
  mkDataLoader (mkSubset sample_tensor_dataset [3; 1; 0]) 2 false.

(** A host whose label file holds a single sample. *)
#[local] Instance single_sample_host : Platform := {|
  os_path_join := posixpath_join;
  Image_open_RGB := fun _ => Ok (mkImage 2 1 [(255, 0, 0); (0, 0, 255)]%N);
  read_lines := fun _ => Ok ["img1.jpg fire"]
|}.

(** The layer maps [i] features to [o] features. *)
Definition Linear_dims (l : Linear) (i o : nat) : Prop :=
  in_features l = i /\ out_features l = o /\
  length (weight l) = o /\ length (bias l) = o.

Definition Smoke_model_dims (self : Smoke_model) (hidden classes : nat) : Prop :=
  Linear_dims (l1 self) 512 hidden /\ Linear_dims (l2 self) hidden classes.

(** The split sizes in exact arithmetic: floor(0.7 n), floor(0.15 n) and
    the rest. *)
Definition exact_split_sizes (n : nat) : Z * Z * Z :=
  let train := 7 * Z.of_nat n / 10 in
  let val := 15 * Z.of_nat n / 100 in
  (train, val, Z.of_nat n - train - val).

(** After [k] one-bit shifts of [m]: the quotient, and where the dropped
    bits lie with respect to one half. *)
Definition shr_inv (m k : Z) (mrs : shr_record) : Prop :=
  exists rem, 0 <= rem < 2 ^ k /\ m = shr_m mrs * 2 ^ k + rem /\
    0 <= shr_m mrs /\
    shr_r mrs = (2 ^ k <=? 2 * rem) /\
    shr_s mrs = negb (rem =? 0) && negb (2 * rem =? 2 ^ k).

(** The entry of class [name] once the labels [names] have been marked:
    one when the class is among them, its former value [x] otherwise. *)
Definition hot (names : list string) (name : string) (x : float32) : float32 :=
  if bool_decide (name ∈ names) then f32_one else x.

(** A string without any whitespace character. *)
Fixpoint spaceless (s : string) : bool :=
  match s with
  | EmptyString => true
  | String c s' => negb (isspace c) && spaceless s'
  end.

(** A line that is empty or holds only whitespace. *)
Fixpoint blank (s : string) : bool :=
  match s with
  | EmptyString => true
  | String c s' => isspace c && blank s'
  end.

(** The vocabulary, listed by class index. *)
Definition vocabulary : list string := ["fire"; "smoke"; "cloud"; "none"].

(* ===================================================================== *)
(** ** The label file as written, class presence, metrics inputs *)
(* ===================================================================== *)

(** A line of the label file as it is written: the file name, each label
    after one space, and the line end. *)
Fixpoint format_labels (labels : list string) : string :=
  match labels with
  | [] => String "010" EmptyString
  | label :: labels' => String " " (label +:+ format_labels labels')
  end.

Definition format_line (sample : string * list string) : string :=
  fst sample +:+ format_labels (snd sample).

(** A token as a label file can hold it: not empty, no whitespace. *)
Definition token (s : string) : Prop :=
  s <> EmptyString /\ spaceless s = true.

(** The class of index [j] is named by one of the labels. *)
Definition class_present (labels : list string) (j : nat) : bool :=
  match vocabulary !! j with
  | Some name => bool_decide (name ∈ labels)
  | None => false
  end.

(** The number of scalars in [smoke_model.parameters()] (line 109). *)
Definition Linear_parameters (l : Linear) : nat :=
  (length (concat (weight l)) + length (bias l))%nat.

Definition Smoke_model_parameters (self : Smoke_model) : nat :=
  (Linear_parameters (l1 self) + Linear_parameters (l2 self))%nat.

(** [forward] on one sample: the two embeddings of the sample to its logits. *)
Definition forward_row (self : Smoke_model) (text image : list float32)
  : list float32 :=
  linear_row (l2 self)
    (map relu_entry (linear_row (l1 self) (zip_with f32_mul text image))).

Definition f32_is_nan (x : float32) : bool :=
  match x with S754_nan => true | _ => false end.

(** [np.argmax] on one row (line 169, along axis 1): the first position of
    the largest entry;
    [gt x best] tells that [x] replaces the best entry seen so far. *)
Fixpoint argmax_from {A : Type} (gt : A -> A -> bool) (best_i : nat) (best : A)
    (i : nat) (row : list A) : nat :=
  match row with
  | [] => best_i
  | x :: row' =>
      if gt x best then argmax_from gt i x (S i) row'
      else argmax_from gt best_i best (S i) row'
  end.

Definition np_argmax {A : Type} (gt : A -> A -> bool) (row : list A)
  : result nat :=
  match row with
  | [] => Raise ValueError
  | x :: row' => Ok (argmax_from gt 0 x 1 row')
  end.

(** On floats a NaN counts as the largest entry; on booleans [True] is
    larger than [False]. *)
Definition f32_argmax_gt (x best : float32) : bool :=
  f32_gt x best || (f32_is_nan x && negb (f32_is_nan best)).

Definition bool_argmax_gt (x best : bool) : bool := x && negb best.

(* ===================================================================== *)
(** * Properties *)
(* ===================================================================== *)

#[local] Set Warnings "-clear-no-such-hyp".

Ltac unfold_bind := unfold mbind, result_bind, bind in *.

(** ** The error monad and list access *)

Lemma for_each_app {A S : Type} (body : S -> A -> result S) xs ys s :
  for_each body (xs ++ ys) s = (s' ← for_each body xs s; for_each body ys s').
Proof.
  revert s. induction xs as [|x xs IH]; intros s; simpl; [done|].
  unfold_bind. destruct (body s x); [apply IH | done].
Qed.

Lemma map_result_length {A B : Type} (f : A -> result B) xs ys :
  map_result f xs = Ok ys -> length ys = length xs.
Proof.
  revert ys. induction xs as [|x xs IH]; intros ys; simpl.
  - intros [= <-]. done.
  - unfold_bind. destruct (f x); [|done].
    destruct (map_result f xs); [|done].
    intros [= <-]. simpl. f_equal. by apply IH.
Qed.

Lemma map_result_Forall {A B : Type} (f : A -> result B) (P : B -> Prop) xs ys :
  (forall x y, f x = Ok y -> P y) ->
  map_result f xs = Ok ys -> Forall P ys.
Proof.
  intros Hf. revert ys. induction xs as [|x xs IH]; intros ys; simpl.
  - intros [= <-]. constructor.
  - unfold_bind. destruct (f x) eqn:Hx; [|done].
    destruct (map_result f xs); [|done].
    intros [= <-]. constructor; eauto.
Qed.

Lemma list_getitem_nat {A : Type} (l : list A) (i : nat) x :
  l !! i = Some x -> list_getitem l (Z.of_nat i) = Ok x.
Proof.
  intros Hi. unfold list_getitem.
  pose proof (lookup_lt_Some _ _ _ Hi) as Hlt.
  destruct (Z.ltb_spec (Z.of_nat i) 0); [lia|].
  destruct (Z.leb_spec 0 (Z.of_nat i)); [|lia].
  destruct (Z.ltb_spec (Z.of_nat i) (Z.of_nat (length l))); [|lia].
  simpl. by rewrite Nat2Z.id, Hi.
Qed.

Lemma list_getitem_0 {A : Type} (l : list A) :
  list_getitem l 0 = match l with x :: _ => Ok x | [] => Raise IndexError end.
Proof. destruct l; unfold list_getitem; simpl; [done|]. by destruct (length l). Qed.

(** ** Tokenising a line *)

Lemma lstrip_blank s : blank s = true -> lstrip s = EmptyString.
Proof.
  induction s as [|c s IH]; simpl; [done|].
  intros [Hc Hs]%andb_prop. rewrite Hc. by apply IH.
Qed.

Lemma blank_lstrip s : blank (lstrip s) = true -> blank s = true.
Proof.
  induction s as [|c s IH]; simpl; [done|].
  destruct (isspace c) eqn:Hc; simpl; [done|]. by rewrite Hc.
Qed.

Lemma blank_rstrip s : blank (rstrip s) = true -> blank s = true.
Proof.
  induction s as [|c s IH]; simpl; [done|].
  destruct (rstrip s) as [|c' r] eqn:Hr.
  - destruct (isspace c) eqn:Hc; simpl; [intros _; by apply IH|].
    by rewrite Hc.
  - simpl. intros [Hc Hs]%andb_prop. rewrite Hc. simpl. by apply IH.
Qed.

Lemma split_go_nil s w :
  split_go s w = [] -> w = EmptyString /\ blank s = true.
Proof.
  revert w. induction s as [|c s IH]; intros w; simpl.
  - by destruct w.
  - destruct (isspace c); simpl.
    + destruct w; [|done]. intros Hs. by destruct (IH _ Hs).
    + intros Hs. destruct (IH _ Hs) as [Hw _]. by destruct w.
Qed.

Lemma split_go_blank s : blank s = true -> split_go s EmptyString = [].
Proof.
  induction s as [|c s IH]; simpl; [done|].
  intros [Hc Hs]%andb_prop. rewrite Hc. by apply IH.
Qed.

(** A line has no token exactly when it is blank. *)
Lemma split_strip_nil s : split (strip s) = [] <-> blank s = true.
Proof.
  unfold split, strip. split.
  - intros [_ Hb]%split_go_nil. by apply blank_lstrip, blank_rstrip.
  - intros Hb. by rewrite (lstrip_blank _ Hb).
Qed.

(** ** Building the dataset *)

Section Dataset.
Context `{Platform}.

Lemma init_line_unfold images_dir self line :
  init_line images_dir self line =
  match split (strip line) with
  | [] => Raise IndexError
  | img_name :: labels =>
      Ok (mkDataset (images_path self ++ [os_path_join images_dir img_name])
                    (images_labels self ++ [labels])
                    (transform self) (num_classes self) (label_map self))
  end.
Proof.
  unfold init_line. rewrite list_getitem_0.
  by destruct (split (strip line)).
Qed.

(** The loop of lines 42-50 only ever raises [IndexError]. *)
Lemma init_loop_raises images_dir lines self e :
  for_each (init_line images_dir) lines self = Raise e -> e = IndexError.
Proof.
  revert self. induction lines as [|line lines IH]; intros self; simpl; [done|].
  rewrite init_line_unfold. unfold_bind.
  destruct (split (strip line)); [by intros [= <-]|]. apply IH.
Qed.

(** What the loop has appended when it completes. *)
Lemma init_loop_ok images_dir lines self ds :
  for_each (init_line images_dir) lines self = Ok ds ->
  exists paths labelss,
    images_path ds = images_path self ++ paths /\
    images_labels ds = images_labels self ++ labelss /\
    Forall2 (fun line path => exists img_name labels,
               split (strip line) = img_name :: labels /\
               path = os_path_join images_dir img_name)
            lines paths /\
    Forall2 (fun line labels => labels = slice_from_1 (split (strip line)))
            lines labelss /\
    transform ds = transform self /\
    num_classes ds = num_classes self /\
    label_map ds = label_map self.
Proof.
  revert self. induction lines as [|line lines IH]; intros self; simpl.
  - intros [= <-]. exists [], []. rewrite !app_nil_r. by repeat split.
  - rewrite init_line_unfold. unfold_bind.
    destruct (split (strip line)) as [|img_name labels] eqn:Hparts; [done|].
    intros Hds. apply IH in Hds. simpl in Hds.
    destruct Hds as (paths & labelss & Hp & Hl & HFp & HFl & Htr & Hnc & Hlm).
    exists (os_path_join images_dir img_name :: paths), (labels :: labelss).
    rewrite Hp, Hl, <- !app_assoc. simpl.
    repeat split; try done.
    + constructor; [|done]. by exists img_name, labels.
    + constructor; [|done]. by rewrite Hparts.
Qed.

Lemma init_ok images_dir lines tr nc ds :
  MultiLabelImageDataset_init images_dir lines tr nc = Ok ds ->
  Forall2 (fun line path => exists img_name labels,
             split (strip line) = img_name :: labels /\
             path = os_path_join images_dir img_name)
          lines (images_path ds) /\
  Forall2 (fun line labels => labels = slice_from_1 (split (strip line)))
          lines (images_labels ds) /\
  transform ds = tr /\ num_classes ds = nc /\
  label_map ds = label_map_literal.
Proof.
  intros Hds. apply init_loop_ok in Hds. simpl in Hds.
  destruct Hds as (paths & labelss & -> & -> & ?). tauto.
Qed.

(** The constructor completes exactly when no line is blank. *)
Lemma init_completes images_dir lines tr nc :
  (exists ds, MultiLabelImageDataset_init images_dir lines tr nc = Ok ds) <->
  Forall (fun line => blank line = false) lines.
Proof.
  unfold MultiLabelImageDataset_init.
  generalize (mkDataset [] [] tr nc label_map_literal) as self.
  induction lines as [|line lines IH]; intros self; simpl.
  - split; [constructor | by eexists].
  - rewrite init_line_unfold. unfold_bind.
    destruct (split (strip line)) as [|img_name labels] eqn:Hparts.
    + apply split_strip_nil in Hparts. split; [by intros [? ?]|].
      intros Hall. inversion Hall; congruence.
    + rewrite IH. split.
      * intros Hall. constructor; [|done].
        destruct (blank line) eqn:Hb; [|done].
        apply split_strip_nil in Hb. congruence.
      * intros Hall. by inversion Hall.
Qed.
End Dataset.

(** ** The label vector *)

Lemma label_map_literal_lookup (label : string) (k : Z) :
  label_map_literal !! label = Some k <->
  exists i : nat, k = Z.of_nat i /\ vocabulary !! i = Some label.
Proof.
  unfold label_map_literal, vocabulary. rewrite !lookup_insert, lookup_empty.
  split.
  - repeat case_decide; intros [= <-]; subst.
    + by exists 0%nat. + by exists 1%nat. + by exists 2%nat. + by exists 3%nat.
  - intros (i & -> & Hi).
    destruct i as [|[|[|[|i]]]]; simpl in Hi; try done;
      injection Hi as <-; by repeat case_decide.
Qed.

Lemma label_map_literal_unknown (label : string) :
  label ∉ vocabulary <-> label_map_literal !! label = None.
Proof.
  split.
  - intros Hnot. destruct (label_map_literal !! label) as [k|] eqn:Hk; [|done].
    apply label_map_literal_lookup in Hk as (i & _ & Hi).
    destruct Hnot. by apply list_elem_of_lookup; exists i.
  - intros Hnone (i & Hi)%list_elem_of_lookup.
    assert (label_map_literal !! label = Some (Z.of_nat i)) as Hsome.
    { apply label_map_literal_lookup. by exists i. }
    congruence.
Qed.

Lemma hot_cons label labels name x :
  hot (label :: labels) name x = hot labels name (hot [label] name x).
Proof.
  unfold hot. repeat case_bool_decide; try done; set_solver.
Qed.

Lemma hot_nil name x : hot [] name x = x.
Proof. unfold hot. case_bool_decide; [set_solver | done]. Qed.

Lemma mark_label_4 self a b c d label :
  label_map self = label_map_literal ->
  mark_label self (mkTensor [4%nat] [a; b; c; d]) label =
  Ok (mkTensor [4%nat] [hot [label] "fire" a; hot [label] "smoke" b;
                        hot [label] "cloud" c; hot [label] "none" d]).
Proof.
  intros Hmap. unfold mark_label. rewrite Hmap.
  destruct (label_map_literal !! label) as [k|] eqn:Hk.
  - apply label_map_literal_lookup in Hk as (i & -> & Hi).
    unfold vocabulary in Hi.
    destruct i as [|[|[|[|i]]]]; simpl in Hi; try done; injection Hi as <-;
      unfold tensor_setitem, hot; simpl; repeat f_equal;
      case_bool_decide as Hd; try done; set_solver.
  - apply label_map_literal_unknown in Hk. unfold vocabulary in Hk.
    unfold hot. repeat f_equal; case_bool_decide; try done; set_solver.
Qed.

Lemma mark_labels_4 self labels a b c d :
  label_map self = label_map_literal ->
  for_each (mark_label self) labels (mkTensor [4%nat] [a; b; c; d]) =
  Ok (mkTensor [4%nat] [hot labels "fire" a; hot labels "smoke" b;
                        hot labels "cloud" c; hot labels "none" d]).
Proof.
  intros Hmap. revert a b c d.
  induction labels as [|label labels IH]; intros a b c d; simpl.
  - by rewrite !hot_nil.
  - rewrite (mark_label_4 _ _ _ _ _ _ Hmap). unfold_bind.
    rewrite IH. by rewrite !(hot_cons label labels).
Qed.

Lemma make_label_vector_4 self labels :
  label_map self = label_map_literal -> num_classes self = 4 ->
  make_label_vector self labels =
  Ok (mkTensor [4%nat] (map (fun name => hot labels name f32_zero) vocabulary)).
Proof.
  intros Hmap Hnc. unfold make_label_vector. rewrite Hnc.
  unfold torch_zeros. simpl. unfold_bind.
  by rewrite (mark_labels_4 _ _ _ _ _ _ Hmap).
Qed.

(** A label outside the map leaves vector and control flow alone. *)
Lemma mark_label_unknown self lv label :
  label_map self !! label = None -> mark_label self lv label = Ok lv.
Proof. intros Hnone. unfold mark_label. by rewrite Hnone. Qed.

Lemma mark_labels_filter self labels lv :
  for_each (mark_label self) labels lv =
  for_each (mark_label self)
           (filter (fun label => is_Some (label_map self !! label)) labels) lv.
Proof.
  revert lv. induction labels as [|label labels IH]; intros lv; [done|].
  rewrite filter_cons. case_decide as Hk.
  - simpl. unfold_bind. destruct (mark_label self lv label); [apply IH | done].
  - simpl. apply eq_None_not_Some in Hk.
    rewrite (mark_label_unknown _ _ _ Hk). unfold_bind. apply IH.
Qed.

(** ** The item accessor *)

Section Accessor.
Context `{Platform}.

Lemma getitem_pair self idx v :
  MultiLabelImageDataset_getitem self idx = Ok v ->
  exists image label_vector, v = PyTuple [image; PyTensor label_vector].
Proof.
  unfold MultiLabelImageDataset_getitem. unfold_bind.
  destruct (list_getitem (images_path self) idx); [|done].
  destruct (list_getitem (images_labels self) idx); [|done].
  destruct (Image_open_RGB a); [|done].
  destruct (make_label_vector self a0) as [lv|]; [|done].
  destruct (match transform self with
            | Some f => f a1 | None => Ok (PyImage a1) end) as [image|];
    [|done].
  intros [= <-]. by exists image, lv.
Qed.

(** The accessor on a dataset built with the default [num_classes]. *)
Lemma getitem_built images_dir lines tr ds (i : nat) line :
  MultiLabelImageDataset_init images_dir lines tr 4 = Ok ds ->
  lines !! i = Some line ->
  exists img_name labels,
    split (strip line) = img_name :: labels /\
    images_path ds !! i = Some (os_path_join images_dir img_name) /\
    images_labels ds !! i = Some labels /\
    MultiLabelImageDataset_getitem ds (Z.of_nat i) =
      (image ← Image_open_RGB (os_path_join images_dir img_name);
       image' ← match tr with
                 | Some f => f image
                 | None => Ok (PyImage image)
                 end;
       Ok (PyTuple
             [image';
              PyTensor
                (mkTensor [4%nat]
                   (map (fun name => hot labels name f32_zero) vocabulary))])).
Proof.
  intros Hds Hline.
  destruct (init_ok _ _ _ _ _ Hds) as (Hp & Hl & Htr & Hnc & Hmap).
  destruct (Forall2_lookup_l _ _ _ _ _ Hp Hline)
    as (path & Hpath & img_name & labels & Hparts & ->).
  destruct (Forall2_lookup_l _ _ _ _ _ Hl Hline) as (labels' & Hlabels & ->).
  rewrite Hparts in Hlabels. simpl in Hlabels.
  exists img_name, labels. repeat split; try done.
  unfold MultiLabelImageDataset_getitem.
  rewrite (list_getitem_nat _ _ _ Hpath), (list_getitem_nat _ _ _ Hlabels).
  unfold_bind. destruct (Image_open_RGB _); [|done].
  by rewrite (make_label_vector_4 _ _ Hmap Hnc), Htr.
Qed.
End Accessor.

(* ===================================================================== *)
(** * Properties stated by the specification *)
(* ===================================================================== *)

(** C1: for every line of the label file, the label vector that
    [__getitem__] builds for it (dataset constructed with the default four
    classes) has shape [4], and for each class index [k] with vocabulary name
    [name] (fire 0, smoke 1, cloud 2, none 3) entry [k] is 1 when [name] is
    among the line's label tokens and 0 otherwise; a line with no label token
    gives the all-zero vector.  The accessor returns that vector next to the
    image whenever opening and transforming the image succeed. *)
Theorem label_vector_is_multi_hot `{Platform} images_dir lines tr ds
    (i : nat) line :
  MultiLabelImageDataset_init images_dir lines tr 4 = Ok ds ->
  lines !! i = Some line ->
  exists img_name tokens lv,
    split (strip line) = img_name :: tokens /\
    images_labels ds !! i = Some tokens /\
    make_label_vector ds tokens = Ok lv /\
    MultiLabelImageDataset_getitem ds (Z.of_nat i) =
      (image ← Image_open_RGB (os_path_join images_dir img_name);
       image' ← match tr with
                 | Some f => f image
                 | None => Ok (PyImage image)
                 end;
       Ok (PyTuple [image'; PyTensor lv])) /\
    shape lv = [4%nat] /\
    length (data lv) = length vocabulary /\
    (forall (k : nat) name, vocabulary !! k = Some name ->
       label_map ds !! name = Some (Z.of_nat k) /\
       data lv !! k =
         Some (if bool_decide (name ∈ tokens) then f32_one else f32_zero)) /\
    (tokens = [] -> data lv = [f32_zero; f32_zero; f32_zero; f32_zero]).
Proof.
  intros Hds Hline.
  destruct (getitem_built _ _ _ _ _ _ Hds Hline)
    as (img_name & tokens & Hparts & _ & Hlabels & Hget).
  destruct (init_ok _ _ _ _ _ Hds) as (_ & _ & _ & Hnc & Hmap).
  exists img_name, tokens,
    (mkTensor [4%nat] (map (fun name => hot tokens name f32_zero) vocabulary)).
  repeat split; try done.
  - by apply make_label_vector_4.
  - rewrite Hmap. apply label_map_literal_lookup. by exists k.
  - cbn [data]. match goal with Hk : vocabulary !! k = Some name |- _ =>
      rewrite list_lookup_fmap, Hk end. done.
  - intros ->. simpl. by rewrite !hot_nil.
Qed.

Lemma label_vector_is_multi_hot_witness :
  exists img_name tokens lv,
    split (strip ("img1.jpg fire smoke" +:+ String "010" "")) = img_name :: tokens /\
    images_labels sample_dataset !! 0%nat = Some tokens /\
    make_label_vector sample_dataset tokens = Ok lv /\
    MultiLabelImageDataset_getitem (H := posix_host) sample_dataset 0 =
      (image ← Image_open_RGB (os_path_join "data" img_name);
       image' ← Ok (PyImage image);
       Ok (PyTuple [image'; PyTensor lv])) /\
    shape lv = [4%nat] /\
    length (data lv) = length vocabulary /\
    (forall (k : nat) name, vocabulary !! k = Some name ->
       label_map sample_dataset !! name = Some (Z.of_nat k) /\
       data lv !! k =
         Some (if bool_decide (name ∈ tokens) then f32_one else f32_zero)) /\
    (tokens = [] -> data lv = [f32_zero; f32_zero; f32_zero; f32_zero]).
Proof.
  apply (label_vector_is_multi_hot (H := posix_host) "data" sample_lines None
           sample_dataset 0); reflexivity.
Defined.

(** C7: label tokens outside the vocabulary fire, smoke, cloud, none are
    silently ignored when the label vector is built.  For every line of the
    label file: a round of the loop on an unknown token returns normally with
    the vector unchanged, the vector built from the line's tokens is the one
    built from its known tokens alone, and (with the default four classes) the
    construction raises nothing. *)
Theorem unknown_labels_are_ignored `{Platform} images_dir lines tr nc ds
    (i : nat) line :
  MultiLabelImageDataset_init images_dir lines tr nc = Ok ds ->
  lines !! i = Some line ->
  let tokens := slice_from_1 (split (strip line)) in
  images_labels ds !! i = Some tokens /\
  (forall label label_vector, label ∉ vocabulary ->
     mark_label ds label_vector label = Ok label_vector) /\
  make_label_vector ds tokens =
    make_label_vector ds (filter (fun label => label ∈ vocabulary) tokens) /\
  (nc = 4 -> exists lv, make_label_vector ds tokens = Ok lv).
Proof.
  intros Hds Hline tokens.
  destruct (init_ok _ _ _ _ _ Hds) as (_ & Hl & _ & Hnc & Hmap).
  destruct (Forall2_lookup_l _ _ _ _ _ Hl Hline) as (labels & Hlabels & ->).
  assert (Hunknown : forall label label_vector, label ∉ vocabulary ->
            mark_label ds label_vector label = Ok label_vector).
  { intros label lv Hnot. apply mark_label_unknown. rewrite Hmap.
    by apply label_map_literal_unknown. }
  repeat split; try done.
  - unfold make_label_vector. unfold_bind.
    destruct (torch_zeros (num_classes ds)) as [lv0|]; [|done].
    generalize lv0. induction tokens as [|label labels IH]; intros lv; [done|].
    rewrite filter_cons. case_decide as Hk; simpl; unfold_bind.
    + destruct (mark_label ds lv label); [apply IH | done].
    + rewrite (Hunknown _ _ Hk). apply IH.
  - intros ->. eexists. by apply make_label_vector_4.
Qed.

Lemma unknown_labels_are_ignored_witness :
  let tokens := slice_from_1 (split (strip "img4.jpg  smog fire	fire")) in
  images_labels sample_dataset !! 3%nat = Some tokens /\
  (forall label label_vector, label ∉ vocabulary ->
     mark_label sample_dataset label_vector label = Ok label_vector) /\
  make_label_vector sample_dataset tokens =
    make_label_vector sample_dataset
      (filter (fun label => label ∈ vocabulary) tokens) /\
  (4 = 4 -> exists lv, make_label_vector sample_dataset tokens = Ok lv).
Proof.
  apply (unknown_labels_are_ignored (H := posix_host) "data" sample_lines None
           4 sample_dataset 3); reflexivity.
Defined.

(** C8: for every sample parsed from the label file, the stored image path
    is [os.path.join] of the images directory and the line's filename token,
    the first token of the whitespace-tokenised line. *)
Theorem image_path_is_joined `{Platform} images_dir lines tr nc ds
    (i : nat) line :
  MultiLabelImageDataset_init images_dir lines tr nc = Ok ds ->
  lines !! i = Some line ->
  exists img_name labels,
    split (strip line) = img_name :: labels /\
    images_path ds !! i = Some (os_path_join images_dir img_name) /\
    MultiLabelImageDataset_len ds = length lines.
Proof.
  intros Hds Hline.
  destruct (init_ok _ _ _ _ _ Hds) as (Hp & _).
  destruct (Forall2_lookup_l _ _ _ _ _ Hp Hline)
    as (path & Hpath & img_name & labels & Hparts & ->).
  exists img_name, labels. repeat split; try done.
  unfold MultiLabelImageDataset_len. symmetry. by eapply Forall2_length.
Qed.

Lemma image_path_is_joined_witness :
  exists img_name labels,
    split (strip "img4.jpg  smog fire	fire") = img_name :: labels /\
    images_path sample_dataset !! 3%nat
      = Some (posixpath_join "data" img_name) /\
    MultiLabelImageDataset_len sample_dataset = length sample_lines.
Proof.
  apply (image_path_is_joined (H := posix_host) "data" sample_lines None
           4 sample_dataset 3); reflexivity.
Defined.

(** C9: if the label file has a line that is empty or holds only
    whitespace, the constructor fails with [IndexError]: the round of the
    loop on that line raises it at [parts[0]], whatever was read before, so no
    sample is recorded for the line and no dataset is returned. *)
Theorem blank_line_raises_IndexError `{Platform} images_dir lines tr nc
    (i : nat) line :
  lines !! i = Some line ->
  blank line = true ->
  split (strip line) = [] /\
  (forall self, init_line images_dir self line = Raise IndexError) /\
  MultiLabelImageDataset_init images_dir lines tr nc = Raise IndexError.
Proof.
  intros Hline Hblank.
  assert (Hparts : split (strip line) = []) by by apply split_strip_nil.
  repeat split; try done.
  - intros self. by rewrite init_line_unfold, Hparts.
  - destruct (MultiLabelImageDataset_init images_dir lines tr nc)
      as [ds|e] eqn:Hinit.
    + assert (Hall : Forall (fun line => blank line = false) lines).
      { apply (init_completes images_dir lines tr nc). by exists ds. }
      rewrite Forall_lookup in Hall. specialize (Hall _ _ Hline). congruence.
    + f_equal. by eapply init_loop_raises.
Qed.

Lemma blank_line_raises_IndexError_witness :
  split (strip (" 	" +:+ String "010" "")) = [] /\
  (forall self, init_line (H := posix_host) "data" self
                  (" 	" +:+ String "010" "") = Raise IndexError) /\
  MultiLabelImageDataset_init (H := posix_host) "data"
    ["img1.jpg fire"; " 	" +:+ String "010" ""; "img2.jpg"] None 4
  = Raise IndexError.
Proof.
  apply (blank_line_raises_IndexError (H := posix_host) "data"
           ["img1.jpg fire"; " 	" +:+ String "010" ""; "img2.jpg"] None 4 1);
    reflexivity.
Defined.

(** ** Collating and unpacking a batch *)

Lemma transposed_length width batch cols :
  transposed width batch = Ok cols -> length cols = width.
Proof.
  revert cols. induction batch as [|sample batch IH]; intros cols; simpl.
  - intros [= <-]. by rewrite length_replicate.
  - destruct sample as [| |items|items]; try done;
      (destruct (Nat.eqb_spec (length items) width) as [Hw|]; [|done]);
      unfold_bind; (destruct (transposed width batch) as [cols'|]; [|done]);
      intros [= <-]; rewrite length_zip_with, (IH _ eq_refl); lia.
Qed.

(** A batch of pairs collates to a list of two entries. *)
Lemma collate_pairs batch out :
  Forall (fun v => exists a b, v = PyTuple [a; b]) batch ->
  default_collate batch = Ok out ->
  exists items, out = PyList items /\ length items = 2%nat.
Proof.
  intros Hpairs. unfold default_collate.
  destruct Hpairs as [|v batch (a & b & ->) Hpairs]; [done|].
  simpl. unfold_bind.
  destruct (transposed 2 batch) as [cols|] eqn:Hcols; [|done].
  apply transposed_length in Hcols.
  destruct cols as [|col1 [|col2 [|col3 cols]]]; try done.
  destruct (collate a col1) as [y1|]; [|done].
  destruct (collate b col2) as [y2|]; [|done].
  intros [= <-]. by exists [y1; y2].
Qed.

Lemma unpack3_two items :
  length items = 2%nat -> unpack3 (PyList items) = Raise ValueError.
Proof. by destruct items as [|a [|b [|c items]]]. Qed.

Section Loaders.
Context `{Platform}.

Lemma Subset_getitem_pair s idx v :
  Subset_getitem s idx = Ok v ->
  exists image label_vector, v = PyTuple [image; PyTensor label_vector].
Proof.
  unfold Subset_getitem. unfold_bind.
  destruct (list_getitem (sub_indices s) idx); [|done].
  apply getitem_pair.
Qed.

(** Whatever the loader yields, it is not a sequence of three. *)
Lemma fetch_unpack3 dl idxs batch :
  DataLoader_fetch dl idxs = Ok batch -> unpack3 batch = Raise ValueError.
Proof.
  unfold DataLoader_fetch. unfold_bind.
  destruct (map_result _ idxs) as [samples|] eqn:Hsamples; [|done].
  intros Hbatch. eapply collate_pairs in Hbatch as (items & -> & Hlen).
  - by apply unpack3_two.
  - eapply map_result_Forall; [|exact Hsamples]. simpl.
    intros i v (image & lv & ->)%Subset_getitem_pair. eauto.
Qed.
End Loaders.

(** C2: [__getitem__] returns exactly a pair (image, label vector), with no
    tokenised-text component; so a batch that the train or the test loader
    yields over this dataset is a list of two entries and the three-way
    unpacking of lines 117 and 143 raises [ValueError]: a round of either loop
    never succeeds (it raises at the unpacking, or earlier when the batch
    cannot be fetched). *)
Theorem getitem_pair_breaks_unpacking `{Platform} `{Torch} self idx v
    (loader : DataLoader) (idxs : list nat) st smoke_model acc :
  MultiLabelImageDataset_getitem self idx = Ok v ->
  (exists image label_vector, v = PyTuple [image; PyTensor label_vector]) /\
  (forall batch, DataLoader_fetch loader idxs = Ok batch ->
     unpack3 batch = Raise ValueError) /\
  train_batch loader st idxs =
    match DataLoader_fetch loader idxs with
    | Ok _ => Raise ValueError
    | Raise e => Raise e
    end /\
  eval_batch smoke_model loader acc idxs =
    match DataLoader_fetch loader idxs with
    | Ok _ => Raise ValueError
    | Raise e => Raise e
    end.
Proof.
  intros Hv. split; [by eapply getitem_pair|].
  split; [intros batch; apply fetch_unpack3|].
  unfold train_batch, eval_batch.
  destruct st as [[m o] l]. destruct acc as [ls ps].
  destruct (DataLoader_fetch loader idxs) as [batch|e] eqn:Hbatch; [|done].
  unfold_bind. by rewrite (fetch_unpack3 _ _ _ Hbatch).
Qed.

Lemma getitem_pair_breaks_unpacking_witness :
  (exists image label_vector,
     PyTuple [PyImage (mkImage 2 1 [(255, 0, 0); (0, 0, 255)]%N);
              PyTensor (mkTensor [4%nat]
                          [f32_zero; f32_zero; f32_zero; f32_one])]
     = PyTuple [image; PyTensor label_vector]) /\
  (forall batch,
     DataLoader_fetch (H := posix_host) sample_tensor_loader [0; 1]%nat
       = Ok batch ->
     unpack3 batch = Raise ValueError) /\
  train_batch (H := posix_host) (H0 := toy_torch) sample_tensor_loader
    (Smoke_model_init init_stream 1 4, tt, lit_0_0) [0; 1]%nat
  = Raise ValueError /\
  eval_batch (H := posix_host) (H0 := toy_torch)
    (Smoke_model_init init_stream 1 4) sample_tensor_loader ([], [])
    [0; 1]%nat
  = Raise ValueError.
Proof.
  apply (getitem_pair_breaks_unpacking (H := posix_host) (H0 := toy_torch)
           sample_dataset 1 _ sample_tensor_loader [0; 1]%nat
           (Smoke_model_init init_stream 1 4, tt, lit_0_0)
           (Smoke_model_init init_stream 1 4) ([], [])).
  reflexivity.
Defined.

(** ** Building the loaders (lines 98-100) *)

Lemma DataLoader_init_shuffle dataset size loader :
  DataLoader_init dataset size true = Ok loader ->
  loader = mkDataLoader dataset size true /\
  (0 < Subset_len dataset)%nat /\ (0 < size)%nat.
Proof.
  unfold DataLoader_init. simpl.
  destruct (Nat.eqb_spec (Subset_len dataset) 0); [done|].
  destruct (Nat.eqb_spec size 0); [done|].
  intros [= <-]. repeat split; lia.
Qed.

Lemma DataLoader_init_empty_shuffle dataset size :
  Subset_len dataset = 0%nat ->
  DataLoader_init dataset size true = Raise ValueError.
Proof. intros Hlen. unfold DataLoader_init. by rewrite Hlen. Qed.

(** C10, as the claim states it, fails: on a label file of one sample the
    training split is empty ([int(0.7 * 1)] is 0), and the run ends in the
    [ValueError] of line 98, not in a division by zero. *)
Lemma empty_training_split_not_ZeroDivisionError :
  train_size 1 = Ok 0 /\
  script (H := single_sample_host) (H0 := toy_torch) = Raise ValueError /\
  script (H := single_sample_host) (H0 := toy_torch)
    <> Raise ZeroDivisionError.
Proof. split; [reflexivity|]. split; [reflexivity | discriminate]. Qed.

(** C10 (amended): if the training split is empty ([train_size] is 0), no
    loss is reported, but not through a division by zero: [random_split]
    returns an empty first subset, building the shuffling train loader over
    it at line 98 raises [ValueError], and the script ends there, before the
    training loop and its division at line 135. *)
Theorem empty_training_split_raises_ValueError `{Platform} `{Torch}
    lines dataset val test :
  read_lines labels_file = Ok lines ->
  MultiLabelImageDataset_init images_dir lines None 4 = Ok dataset ->
  split_sizes (MultiLabelImageDataset_len dataset) = Ok (0, val, test) ->
  (exists train_dataset val_dataset test_dataset,
     random_split dataset [0; val; test]
       = Ok [train_dataset; val_dataset; test_dataset] /\
     Subset_len train_dataset = 0%nat /\
     DataLoader_init train_dataset batch_size true = Raise ValueError) /\
  script = Raise ValueError.
Proof.
  intros Hlines Hinit Hsizes.
  assert (Htest : test = Z.of_nat (MultiLabelImageDataset_len dataset) - 0 - val).
  { revert Hsizes. unfold split_sizes. unfold_bind.
    destruct (train_size _); [|done]. destruct (val_size _); [|done].
    by intros [= -> -> <-]. }
  assert (Hsplit : exists train_dataset val_dataset test_dataset,
             random_split dataset [0; val; test]
               = Ok [train_dataset; val_dataset; test_dataset] /\
             Subset_len train_dataset = 0%nat).
  { unfold random_split. simpl foldr.
    destruct (Z.eqb_spec (0 + (val + (test + 0)))
                (Z.of_nat (MultiLabelImageDataset_len dataset))); [|lia].
    simpl. eexists _, _, _. split; reflexivity. }
  destruct Hsplit as (s1 & s2 & s3 & Hsplit & Hlen).
  split.
  - exists s1, s2, s3. split; [done|]. split; [done|].
    by apply DataLoader_init_empty_shuffle.
  - unfold script. rewrite Hlines. unfold_bind. rewrite Hinit, Hsizes, Hsplit.
    by rewrite (DataLoader_init_empty_shuffle _ _ Hlen).
Qed.

Lemma empty_training_split_raises_ValueError_witness :
  (exists train_dataset val_dataset test_dataset,
     random_split (H := toy_torch)
       (mkDataset [posixpath_join images_dir "img1.jpg"] [["fire"]] None 4
          label_map_literal) [0; 0; 1]
       = Ok [train_dataset; val_dataset; test_dataset] /\
     Subset_len train_dataset = 0%nat /\
     DataLoader_init train_dataset batch_size true = Raise ValueError) /\
  script (H := single_sample_host) (H0 := toy_torch) = Raise ValueError.
Proof.
  apply (empty_training_split_raises_ValueError (H := single_sample_host)
           (H0 := toy_torch) ["img1.jpg fire"]
           (mkDataset [posixpath_join images_dir "img1.jpg"] [["fire"]] None 4
              label_map_literal) 0 1); reflexivity.
Defined.

(** ** Tensors: shapes, broadcasting, the layers *)

Lemma f32_mul_comm x y : f32_mul x y = f32_mul y x.
Proof.
  unfold f32_mul. destruct x as [sx|sx| |sx mx ex], y as [sy|sy| |sy my ey];
    simpl; try done; try (by rewrite xorb_comm).
  by rewrite xorb_comm, Pos.mul_comm, Z.add_comm.
Qed.

Lemma broadcast_dim_comm da db : broadcast_dim da db = broadcast_dim db da.
Proof.
  unfold broadcast_dim.
  destruct (Nat.eqb_spec da db), (Nat.eqb_spec db da),
    (Nat.eqb_spec da 1), (Nat.eqb_spec db 1); congruence.
Qed.

Lemma broadcast_rev_comm ra rb : broadcast_rev ra rb = broadcast_rev rb ra.
Proof.
  revert rb. induction ra as [|da ra IH]; intros [|db rb]; simpl; try done.
  by rewrite broadcast_dim_comm, IH.
Qed.

Lemma torch_mul_comm a b : torch_mul a b = torch_mul b a.
Proof.
  unfold torch_mul, broadcast_shapes.
  rewrite (broadcast_rev_comm (rev (shape a))).
  destruct (broadcast_rev _ _); [|done].
  do 2 f_equal. apply map_ext. intros k. apply f32_mul_comm.
Qed.

Lemma broadcast_rev_same r : broadcast_rev r r = Some r.
Proof.
  induction r as [|d r IH]; simpl; [done|].
  unfold broadcast_dim. by rewrite Nat.eqb_refl, IH.
Qed.

Lemma numel_app s1 s2 : numel (s1 ++ s2) = (numel s1 * numel s2)%nat.
Proof.
  induction s1 as [|d s1 IH]; simpl; [lia|]. rewrite IH. lia.
Qed.

Lemma numel_rev s : numel (rev s) = numel s.
Proof.
  induction s as [|d s IH]; simpl; [done|].
  rewrite numel_app, IH. simpl. lia.
Qed.

(** Without broadcasting, position [k] reads entry [k]. *)
Lemma offset_rev_same r k stride :
  (k < numel r)%nat -> offset_rev r r k stride = (k * stride)%nat.
Proof.
  revert k stride. induction r as [|d r IH]; intros k stride; simpl.
  - intros Hk. assert (k = 0%nat) as -> by lia. done.
  - intros Hk. assert (d <> 0%nat) as Hd by (intros ->; simpl in Hk; lia).
    rewrite IH by (apply Nat.Div0.div_lt_upper_bound; lia).
    pose proof (Nat.div_mod_eq k d) as Hdm.
    destruct (Nat.eqb_spec d 1) as [->|Hd1].
    + rewrite Nat.div_1_r. lia.
    + nia.
Qed.

Lemma map_seq_nth_zip {A : Type} (f : A -> A -> A) (la lb : list A) d :
  length la = length lb ->
  map (fun k => f (nth k la d) (nth k lb d)) (seq 0 (length la))
  = zip_with f la lb.
Proof.
  revert lb. induction la as [|x la IH]; intros [|y lb]; simpl; try done.
  intros [= Hlen]. f_equal. rewrite <- seq_shift, map_map. by apply IH.
Qed.

(** On equal shapes the product is taken entry by entry. *)
Lemma torch_mul_same_shape a b :
  shape a = shape b ->
  length (data a) = numel (shape a) ->
  length (data b) = numel (shape b) ->
  torch_mul a b = Ok (mkTensor (shape a) (zip_with f32_mul (data a) (data b))).
Proof.
  intros Hshape Ha Hb. unfold torch_mul, broadcast_shapes.
  rewrite <- Hshape, broadcast_rev_same, rev_involutive.
  do 2 f_equal. rewrite <- map_seq_nth_zip with (d := f32_zero) by congruence.
  rewrite Ha. apply map_ext_in. intros k [_ Hk]%in_seq.
  unfold broadcast_get. rewrite <- Hshape.
  rewrite offset_rev_same by (by rewrite numel_rev). by rewrite Nat.mul_1_r.
Qed.

Lemma torch_mul_shape a b s :
  shape a = s -> shape b = s ->
  exists c, torch_mul a b = Ok c /\ shape c = s.
Proof.
  intros Ha Hb. unfold torch_mul, broadcast_shapes.
  rewrite Ha, Hb, broadcast_rev_same, rev_involutive. by eexists.
Qed.

Lemma rows_length {A : Type} n count (l : list A) :
  length (rows n count l) = count.
Proof.
  revert l. induction count as [|c IH]; intros l; simpl; [done|].
  by rewrite IH.
Qed.

Lemma concat_map_length {A B : Type} (f : A -> list B) xs o :
  (forall x, length (f x) = o) ->
  length (concat (map f xs)) = (length xs * o)%nat.
Proof.
  intros Hf. induction xs as [|x xs IH]; simpl; [done|].
  by rewrite length_app, Hf, IH.
Qed.

Lemma Linear_forward_shape l x batch i o :
  Linear_dims l i o -> shape x = [batch; i] ->
  exists y, Linear_forward l x = Ok y /\ shape y = [batch; o] /\
            length (data y) = (batch * o)%nat.
Proof.
  intros (Hi & Ho & Hw & Hb) Hx. unfold Linear_forward.
  rewrite Hx. simpl. rewrite Hi, Nat.eqb_refl, Ho.
  eexists. repeat split. simpl.
  rewrite (concat_map_length _ _ o), rows_length; [lia|].
  intros row. unfold linear_row. rewrite length_zip_with. lia.
Qed.

Lemma nn_Linear_dims gen pos i o : Linear_dims (nn_Linear gen pos i o) i o.
Proof.
  unfold Linear_dims, nn_Linear. simpl.
  by rewrite !length_map, !length_seq.
Qed.

Lemma Smoke_model_init_dims gen hidden classes :
  Smoke_model_dims (Smoke_model_init gen hidden classes) hidden classes.
Proof. split; apply nn_Linear_dims. Qed.

(** C5: the fusion step of [forward] commutes.  For embeddings [a] and [b]
    of the same shape, [forward(a, b) = forward(b, a)], because the fusion
    [a * b] is the entry-by-entry product and float32 multiplication is
    commutative. *)
Theorem forward_commutes self a b :
  shape a = shape b ->
  length (data a) = numel (shape a) ->
  length (data b) = numel (shape b) ->
  torch_mul a b = Ok (mkTensor (shape a) (zip_with f32_mul (data a) (data b))) /\
  torch_mul a b = torch_mul b a /\
  Smoke_model_forward self a b = Smoke_model_forward self b a.
Proof.
  intros Hshape Ha Hb. split; [by apply torch_mul_same_shape|].
  split; [apply torch_mul_comm|].
  unfold Smoke_model_forward. by rewrite torch_mul_comm.
Qed.

Lemma forward_commutes_witness :
  let a := mkTensor [1; 2]%nat [f32_half; f32_one] in
  let b := mkTensor [1; 2]%nat [f32_one; f32_zero] in
  let self := Smoke_model_init (fun _ => f32_half) 3 4 in
  torch_mul a b = Ok (mkTensor (shape a) (zip_with f32_mul (data a) (data b))) /\
  torch_mul a b = torch_mul b a /\
  Smoke_model_forward self a b = Smoke_model_forward self b a.
Proof.
  apply (forward_commutes (Smoke_model_init (fun _ => f32_half) 3 4)
           (mkTensor [1; 2]%nat [f32_half; f32_one])
           (mkTensor [1; 2]%nat [f32_one; f32_zero])); reflexivity.
Defined.

(** C6: for a batch of embedding pairs of dimension 512 and any hidden
    width (positive or not), [forward] returns a tensor of shape
    [[batch; num_classes]]: the fused embedding goes through a layer from 512
    to [hidden] features, a ReLU and a layer from [hidden] to [num_classes]
    features.  The constructor builds layers of these dimensions, and the
    script uses hidden 256 and 4 classes. *)
Theorem forward_output_shape self hidden classes batch a b :
  Smoke_model_dims self hidden classes ->
  shape a = [batch; 512%nat] ->
  shape b = [batch; 512%nat] ->
  exists combined h out,
    torch_mul a b = Ok combined /\
    Linear_forward (l1 self) combined = Ok h /\
    shape h = [batch; hidden] /\
    Linear_forward (l2 self) (nn_ReLU h) = Ok out /\
    Smoke_model_forward self a b = Ok out /\
    shape out = [batch; classes] /\
    length (data out) = (batch * classes)%nat /\
    (forall gen,
       Smoke_model_dims (Smoke_model_init gen hidden classes) hidden classes) /\
    hidden_dim = 256%nat /\ script_num_classes = 4%nat.
Proof.
  intros [H1 H2] Ha Hb.
  destruct (torch_mul_shape a b _ Ha Hb) as (combined & Hmul & Hc).
  destruct (Linear_forward_shape _ _ _ _ _ H1 Hc) as (h & Hh & Hhs & _).
  assert (Hrelu : shape (nn_ReLU h) = [batch; hidden]) by done.
  destruct (Linear_forward_shape _ _ _ _ _ H2 Hrelu) as (out & Hout & Hos & Hol).
  exists combined, h, out.
  split; [done|]. split; [done|]. split; [done|]. split; [done|].
  split; [unfold Smoke_model_forward; rewrite Hmul; unfold_bind;
          by rewrite Hh|].
  split; [done|]. split; [done|].
  split; [intros gen; apply Smoke_model_init_dims | done].
Qed.

Lemma forward_output_shape_witness :
  let self := Smoke_model_init (fun _ => f32_half) 2 4 in
  let a := mkTensor [2; 512]%nat (replicate 1024 f32_one) in
  let b := mkTensor [2; 512]%nat (replicate 1024 f32_half) in
  exists combined h out,
    torch_mul a b = Ok combined /\
    Linear_forward (l1 self) combined = Ok h /\
    shape h = [2; 2]%nat /\
    Linear_forward (l2 self) (nn_ReLU h) = Ok out /\
    Smoke_model_forward self a b = Ok out /\
    shape out = [2; 4]%nat /\
    length (data out) = (2 * 4)%nat /\
    (forall gen, Smoke_model_dims (Smoke_model_init gen 2 4) 2 4) /\
    hidden_dim = 256%nat /\ script_num_classes = 4%nat.
Proof.
  apply (forward_output_shape (Smoke_model_init (fun _ => f32_half) 2 4) 2 4 2
           (mkTensor [2; 512]%nat (replicate 1024 f32_one))
           (mkTensor [2; 512]%nat (replicate 1024 f32_half)));
    [apply Smoke_model_init_dims | reflexivity | reflexivity].
Defined.

(** C4: in evaluation each class is predicted on its own as
    [sigmoid(logit) > 0.5], a strict comparison: an entry whose sigmoid is
    exactly 0.5 is predicted negative. *)
Theorem sigmoid_half_predicts_negative `{Torch} outputs (i : nat) logit :
  data outputs !! i = Some logit ->
  sigmoid logit = f32_half ->
  bdata (predict outputs) !! i = Some false /\
  bshape (predict outputs) = shape outputs /\
  (forall (j : nat) x, data outputs !! j = Some x ->
     bdata (predict outputs) !! j = Some (f32_gt (sigmoid x) f32_half)).
Proof.
  intros Hi Hhalf.
  assert (Hentry : forall (j : nat) x, data outputs !! j = Some x ->
            bdata (predict outputs) !! j = Some (f32_gt (sigmoid x) f32_half)).
  { intros j x Hj. unfold predict. cbn [bdata].
    change (map ?f ?l) with (f <$> l). by rewrite list_lookup_fmap, Hj. }
  repeat split; try done.
  rewrite (Hentry _ _ Hi), Hhalf. done.
Qed.

Lemma sigmoid_half_predicts_negative_witness :
  let outputs := mkTensor [1; 4]%nat
                   [f32_one; f32_zero; SFopp f32_one; f32_half] in
  bdata (predict (H := toy_torch) outputs) !! 1%nat = Some false /\
  bshape (predict (H := toy_torch) outputs) = shape outputs /\
  (forall (j : nat) x, data outputs !! j = Some x ->
     bdata (predict (H := toy_torch) outputs) !! j
     = Some (f32_gt (sigmoid (Torch := toy_torch) x) f32_half)).
Proof.
  apply (sigmoid_half_predicts_negative (H := toy_torch)
           (mkTensor [1; 4]%nat [f32_one; f32_zero; SFopp f32_one; f32_half])
           1 f32_zero); reflexivity.
Defined.

(** ** Rounding to binary64 *)

Lemma shr_1_spec mrs :
  0 <= shr_m mrs ->
  shr_m mrs = 2 * shr_m (shr_1 mrs) + Z.b2z (shr_r (shr_1 mrs)) /\
  0 <= shr_m (shr_1 mrs) /\
  shr_s (shr_1 mrs) = shr_r mrs || shr_s mrs.
Proof.
  destruct mrs as [m r s]. simpl. intros Hm.
  destruct m as [|[p|p|]|p]; simpl; try lia; repeat split; try lia.
Qed.

Lemma shr_inv_0 m : 0 <= m -> shr_inv m 0 (Build_shr_record m false false).
Proof. intros Hm. exists 0. simpl. repeat split; try lia. Qed.

Lemma shr_inv_step m k mrs :
  0 <= k -> shr_inv m k mrs -> shr_inv m (k + 1) (shr_1 mrs).
Proof.
  intros Hk (rem & Hrem & Hm & Hq & Hr & Hs).
  destruct (shr_1_spec mrs Hq) as (Hq' & Hq0 & Hs').
  exists (Z.b2z (shr_r (shr_1 mrs)) * 2 ^ k + rem).
  rewrite Z.pow_add_r, Z.pow_1_r by lia.
  assert (0 < 2 ^ k) by (apply Z.pow_pos_nonneg; lia).
  rewrite Hs', Hr, Hs.
  destruct (shr_r (shr_1 mrs)); simpl Z.b2z in *;
    (split; [lia|]); (split; [lia|]); (split; [lia|]); split.
  - destruct (Z.leb_spec (2 ^ k * 2) (2 * (1 * 2 ^ k + rem))); lia.
  - destruct (Z.leb_spec (2 ^ k) (2 * rem)), (Z.eqb_spec rem 0),
      (Z.eqb_spec (2 * rem) (2 ^ k)), (Z.eqb_spec (1 * 2 ^ k + rem) 0),
      (Z.eqb_spec (2 * (1 * 2 ^ k + rem)) (2 ^ k * 2)); simpl; try lia; reflexivity.
  - destruct (Z.leb_spec (2 ^ k * 2) (2 * (0 * 2 ^ k + rem))); lia.
  - destruct (Z.leb_spec (2 ^ k) (2 * rem)), (Z.eqb_spec rem 0),
      (Z.eqb_spec (2 * rem) (2 ^ k)), (Z.eqb_spec (0 * 2 ^ k + rem) 0),
      (Z.eqb_spec (2 * (0 * 2 ^ k + rem)) (2 ^ k * 2)); simpl; try lia; reflexivity.
Qed.

Lemma shr_inv_iter m p : forall k mrs,
  0 <= k -> shr_inv m k mrs -> shr_inv m (k + Z.pos p) (SpecFloat.iter_pos shr_1 p mrs).
Proof.
  induction p as [p IH|p IH|]; intros k mrs Hk Hinv; simpl.
  - replace (k + Z.pos p~1) with (k + 1 + Z.pos p + Z.pos p) by lia.
    apply IH; [lia|]. apply IH; [lia|]. by apply shr_inv_step.
  - replace (k + Z.pos p~0) with (k + Z.pos p + Z.pos p) by lia.
    apply IH; [lia|]. by apply IH.
  - by apply shr_inv_step.
Qed.

Lemma digits2_pos_size p : digits2_pos p = Pos.size p.
Proof. induction p as [p IH|p IH|]; simpl; by rewrite ?IH. Qed.

Lemma Zdigits2_log2 m : 0 < m -> Zdigits2 m = Z.succ (Z.log2 m).
Proof.
  destruct m as [|p|p]; try lia. intros _. simpl.
  destruct p; simpl; rewrite ?digits2_pos_size; lia.
Qed.

Lemma Zdigits2_bounds m :
  0 < m -> 2 ^ (Zdigits2 m - 1) <= m < 2 ^ Zdigits2 m.
Proof.
  intros Hm. rewrite (Zdigits2_log2 m Hm).
  replace (Z.succ (Z.log2 m) - 1) with (Z.log2 m) by lia.
  by apply Z.log2_spec.
Qed.

Lemma Zdigits2_unique m d :
  0 < d -> 2 ^ (d - 1) <= m < 2 ^ d -> Zdigits2 m = d.
Proof.
  intros Hd Hm.
  assert (0 < m).
  { assert (0 < 2 ^ (d - 1)) by (apply Z.pow_pos_nonneg; lia). lia. }
  rewrite Zdigits2_log2 by done.
  rewrite (Z.log2_unique m (d - 1)); [lia | lia |].
  by replace (Z.succ (d - 1)) with d by lia.
Qed.

(** Rounding a positive [P * 2^E] with [s] bits to drop, in binary64. *)
Lemma binary_round_aux_drop P E :
  0 < P ->
  let s := Zdigits2 P - 53 in
  0 < s -> -1074 <= E + s -> E + s < 970 ->
  exists q' m e,
    binary_round_aux 53 1024 false P E loc_Exact = S754_finite false m e /\
    (Z.pos m = q' /\ e = E + s \/
     q' = 2 ^ 53 /\ Z.pos m = 2 ^ 52 /\ e = E + s + 1) /\
    P / 2 ^ s <= q' <= P / 2 ^ s + 1 /\
    (q' = P / 2 ^ s + 1 -> 2 ^ s <= 2 * (P mod 2 ^ s)) /\
    (2 ^ s < 2 * (P mod 2 ^ s) -> q' = P / 2 ^ s + 1).
Proof.
  intros HP s Hs Hlo Hhi.
  pose proof (Zdigits2_bounds P HP) as HPb.
  unfold binary_round_aux, shr_fexp.
  assert (Hshift : fexp 53 1024 (Zdigits2 P + E) - E = s).
  { unfold fexp, emin. subst s. lia. }
  rewrite Hshift. unfold shr at 1.
  destruct s as [|p|p] eqn:Hsp; try lia.
  pose proof (shr_inv_iter P p 0 (shr_record_of_loc P loc_Exact)
                ltac:(lia) (shr_inv_0 P ltac:(lia))) as Hinv.
  rewrite Z.add_0_l in Hinv.
  destruct (SpecFloat.iter_pos shr_1 p (shr_record_of_loc P loc_Exact))
    as [q r sb].
  destruct Hinv as (rem & Hrem & HPq & Hq & Hr & Hsb). simpl in HPq, Hq, Hr, Hsb.
  assert (H2s : 0 < 2 ^ Z.pos p) by (apply Z.pow_pos_nonneg; lia).
  assert (Hdiv : P / 2 ^ Z.pos p = q).
  { symmetry. apply (Z.div_unique_pos P (2 ^ Z.pos p) q rem); lia. }
  assert (Hmod : P mod 2 ^ Z.pos p = rem).
  { symmetry. apply (Z.mod_unique_pos P (2 ^ Z.pos p) q rem); lia. }
  rewrite Hdiv, Hmod.
  assert (Hqb : 2 ^ 52 <= q < 2 ^ 53).
  { assert (Zdigits2 P = Z.pos p + 53) as HD by lia. rewrite HD in HPb.
    replace (Z.pos p + 53 - 1) with (52 + Z.pos p) in HPb by lia.
    rewrite (Z.add_comm (Z.pos p) 53) in HPb.
    rewrite !Z.pow_add_r in HPb by lia. nia. }
  simpl.
  set (q' := round_nearest_even q _).
  assert (Hq' : q <= q' <= q + 1 /\
                (q' = q + 1 -> 2 ^ Z.pos p <= 2 * rem) /\
                (2 ^ Z.pos p < 2 * rem -> q' = q + 1)).
  { subst q'.
    destruct (Z.leb_spec (2 ^ Z.pos p) (2 * rem)), (Z.eqb_spec rem 0),
      (Z.eqb_spec (2 * rem) (2 ^ Z.pos p)); subst r sb; simpl;
      try destruct (Z.even q); lia. }
  destruct Hq' as (Hq'b & Hq'up & Hq'gt).
  clearbody q'.
  destruct (Z.eq_dec q' (2 ^ 53)) as [Heq|Hne].
  - subst q'. exists (2 ^ 53), 4503599627370496%positive, (E + Z.pos p + 1).
    split; [|split; [right; repeat split; try done; lia
                    | split; [lia | split; [exact Hq'up | exact Hq'gt]]]].
    change (2 ^ 53) with 9007199254740992.
    change (Zdigits2 9007199254740992) with 54.
    unfold fexp, emin.
    match goal with |- context [shr _ _ ?n] => replace n with 1 by lia end.
    simpl.
    destruct (Z.leb_spec (E + Z.pos p + 1) (1024 - 53)); [done | lia].
  - exists q', (Z.to_pos q'), (E + Z.pos p).
    assert (Hd : Zdigits2 q' = 53) by (apply Zdigits2_unique; lia).
    split; [|split; [left; split; lia
                    | split; [lia | split; [exact Hq'up | exact Hq'gt]]]].
    rewrite Hd. unfold fexp, emin.
    match goal with |- context [shr _ _ ?n] => replace n with 0 by lia end.
    simpl. destruct q' as [|m|m]; try lia. simpl.
    destruct (Z.leb_spec (E + Z.pos p) (1024 - 53)); [done | lia].
Qed.

Lemma pos_iter_xO m d : Z.pos (Pos.iter xO m d) = Z.pos m * 2 ^ Z.pos d.
Proof.
  induction d as [|d IH] using Pos.peano_ind.
  - simpl. lia.
  - rewrite Pos.iter_succ, Pos2Z.inj_succ, Z.pow_succ_r by lia.
    rewrite Pos2Z.inj_xO, IH. lia.
Qed.

Lemma binary_round_aux_exact m e :
  Zdigits2 (Z.pos m) = 53 -> -1074 <= e <= 971 ->
  binary_round_aux 53 1024 false (Z.pos m) e loc_Exact = S754_finite false m e.
Proof.
  intros Hd He. unfold binary_round_aux, shr_fexp. rewrite Hd.
  unfold fexp, emin.
  replace (Z.max (53 + e - 53) (3 - 1024 - 53) - e) with 0 by lia.
  simpl. change (Z.pos (digits2_pos m)) with (Zdigits2 (Z.pos m)). rewrite Hd.
  unfold fexp, emin.
  replace (Z.max (53 + e - 53) (3 - 1024 - 53) - e) with 0 by lia.
  simpl. destruct (Z.leb_spec e (1024 - 53)); [done | lia].
Qed.

(** The binary64 value of a positive integer below 2^53 is exact. *)
Lemma binary_normalize_int n :
  0 < n < 2 ^ 53 ->
  binary_normalize 53 1024 n 0 false =
  S754_finite false (Z.to_pos (n * 2 ^ (53 - Zdigits2 n))) (Zdigits2 n - 53).
Proof.
  intros Hn. pose proof (Zdigits2_bounds n ltac:(lia)) as Hb.
  assert (Hd : 1 <= Zdigits2 n <= 53).
  { split.
    - rewrite Zdigits2_log2 by lia. pose proof (Z.log2_nonneg n). lia.
    - destruct (Z.le_gt_cases (Zdigits2 n) 53) as [|Hgt]; [done|].
      assert (2 ^ 53 <= 2 ^ (Zdigits2 n - 1)) by (apply Z.pow_le_mono_r; lia).
      lia. }
  destruct n as [|p|p]; try lia.
  unfold binary_normalize, binary_round.
  change (Z.pos (digits2_pos p)) with (Zdigits2 (Z.pos p)).
  set (d := Zdigits2 (Z.pos p)) in *.
  assert (Hfexp : fexp 53 1024 (d + 0) = d - 53) by (unfold fexp, emin; lia).
  rewrite Hfexp. unfold shl_align.
  assert (Hmz : Zdigits2 (Z.pos p * 2 ^ (53 - d)) = 53).
  { apply Zdigits2_unique; [lia|].
    assert (0 < 2 ^ (53 - d)) by (apply Z.pow_pos_nonneg; lia).
    replace (2 ^ (53 - 1)) with (2 ^ (d - 1) * 2 ^ (53 - d))
      by (rewrite <- Z.pow_add_r by lia; f_equal; lia).
    replace (2 ^ 53) with (2 ^ d * 2 ^ (53 - d))
      by (rewrite <- Z.pow_add_r by lia; f_equal; lia).
    nia. }
  destruct (d - 53 - 0) as [|k|k] eqn:Hk; try lia.
  - replace (53 - d) with 0 in * by lia. rewrite Z.mul_1_r in *.
    replace (d - 53) with 0 by lia. simpl Z.to_pos.
    by apply binary_round_aux_exact.
  - assert (Z.pos (Pos.iter xO p k) = Z.pos p * 2 ^ (53 - d)) as Hiter.
    { rewrite pos_iter_xO. do 2 f_equal. lia. }
    rewrite <- Hiter. simpl Z.to_pos.
    apply binary_round_aux_exact; [by rewrite Hiter | lia].
Qed.

(** ** The split sizes *)

(** The literals are the binary64 values nearest to 7/10 and 15/100: they
    are canonical and lie within half a unit in the last place. *)
Lemma literals_nearest :
  valid_binary 53 1024 lit_0_7 = true /\
  valid_binary 53 1024 lit_0_15 = true /\
  Z.abs (10 * 6305039478318694 - 7 * 2 ^ 53) * 2 < 10 /\
  Z.abs (100 * 5404319552844595 - 15 * 2 ^ 55) * 2 < 100.
Proof. repeat split; reflexivity. Qed.

(** At 90 samples the product [0.7 * 90] rounds to the binary64 value just
    below 63, and [int] truncates it to 62. *)
Lemma split_sizes_90_not_exact :
  split_sizes 90 = Ok (62, 13, 15) /\
  exact_split_sizes 90 = (63, 13, 14) /\
  split_sizes 90 <> Ok (exact_split_sizes 90).
Proof. repeat split; try reflexivity. discriminate. Qed.

(** [int(x * n)] for a positive binary64 [x = c * 2^ec] and an integer [n]:
    the product [X = c * n] is rounded at bit [i] and then truncated. *)
Lemma int_of_float_mul_int c ec n :
  Zdigits2 (Z.pos c) = 53 -> 0 < n < 2 ^ 53 ->
  let X := Z.pos c * n in
  let i := Zdigits2 X - 53 in
  -1074 <= ec -> ec + i <= 0 ->
  exists q',
    (x ← float_mul_int (S754_finite false c ec) n; int_of_float x)
      = Ok (q' / 2 ^ (- (ec + i))) /\
    0 <= i /\
    X / 2 ^ i <= q' <= X / 2 ^ i + 1 /\
    (q' = X / 2 ^ i + 1 -> 2 ^ i <= 2 * (X mod 2 ^ i)) /\
    (2 ^ i < 2 * (X mod 2 ^ i) -> q' = X / 2 ^ i + 1).
Proof.
  intros Hc Hn X i Hec Hi.
  pose proof (Zdigits2_bounds (Z.pos c) ltac:(lia)) as Hcb. rewrite Hc in Hcb.
  change (2 ^ (53 - 1)) with (2 ^ 52) in Hcb.
  pose proof (Zdigits2_bounds n ltac:(lia)) as Hnb.
  assert (HX : 0 < X) by (subst X; lia).
  pose proof (Zdigits2_bounds X HX) as HXb. fold i in HXb.
  set (d := Zdigits2 n) in *.
  assert (Hd : 1 <= d <= 53).
  { split.
    - subst d. rewrite Zdigits2_log2 by lia. pose proof (Z.log2_nonneg n). lia.
    - destruct (Z.le_gt_cases d 53) as [|Hgt]; [done|].
      assert (2 ^ 53 <= 2 ^ (d - 1)) by (apply Z.pow_le_mono_r; lia). lia. }
  set (a := 53 - d).
  assert (H2a : 0 < 2 ^ a) by (apply Z.pow_pos_nonneg; lia).
  assert (Hi0 : 0 <= i).
  { destruct (Z.le_gt_cases 0 i) as [|Hneg]; [done|].
    assert (2 ^ Zdigits2 X <= 2 ^ 52) by (apply Z.pow_le_mono_r; lia).
    assert (Z.pos c <= X) by (subst X; nia). lia. }
  assert (H2i : 0 < 2 ^ i) by (apply Z.pow_pos_nonneg; lia).
  assert (Hia : 0 < i + a).
  { destruct (Z.eq_dec (i + a) 0) as [Hz|]; [|lia].
    assert (d = 53) as Hd53 by lia. assert (i = 0) as Hiz by lia.
    rewrite Hd53 in Hnb. change (2 ^ (53 - 1)) with (2 ^ 52) in Hnb.
    assert (Zdigits2 X = 53) as HdX by lia. rewrite HdX in HXb.
    subst X. change (2 ^ 53) with (2 ^ 52 * 2) in HXb. nia. }
  unfold float_mul_int, float_of_int. rewrite (binary_normalize_int n Hn).
  fold d. fold a. unfold_bind. unfold f64_mul, SFmul. simpl xorb.
  set (P := Z.pos (c * Z.to_pos (n * 2 ^ a))).
  assert (HP : P = X * 2 ^ a).
  { subst P X. rewrite Pos2Z.inj_mul, Z2Pos.id by lia. lia. }
  assert (HdP : Zdigits2 P = Zdigits2 X + a).
  { apply Zdigits2_unique; [lia|]. rewrite HP.
    replace (Zdigits2 X + a - 1) with (Zdigits2 X - 1 + a) by lia.
    rewrite !Z.pow_add_r by lia. nia. }
  pose proof (binary_round_aux_drop P (ec + (d - 53)) ltac:(lia)) as Hdrop.
  cbv zeta in Hdrop. rewrite HdP in Hdrop.
  replace (Zdigits2 X + a - 53) with (i + a) in Hdrop by lia.
  destruct Hdrop as (q' & m & e & -> & Hme & Hq'b & Hq'up & Hq'gt); try lia.
  assert (Hq : P / 2 ^ (i + a) = X / 2 ^ i).
  { rewrite HP, Z.pow_add_r by lia. apply Z.div_mul_cancel_r; lia. }
  assert (Hr : P mod 2 ^ (i + a) = (X mod 2 ^ i) * 2 ^ a).
  { rewrite HP, Z.pow_add_r by lia. apply Z.mul_mod_distr_r; lia. }
  rewrite Hq in Hq'b, Hq'up, Hq'gt. rewrite Hr in Hq'up, Hq'gt.
  exists q'. split; [|split; [done | split; [done | split]]].
  - f_equal. simpl. replace (ec + (d - 53) + (i + a)) with (ec + i) in Hme by lia.
    destruct Hme as [[Hm ->] | (-> & Hm & ->)].
    + rewrite Hm. destruct (Z.leb_spec 0 (ec + i)).
      * replace (ec + i) with 0 by lia. simpl. by rewrite Z.div_1_r, Z.mul_1_r.
      * done.
    + rewrite Hm. destruct (Z.leb_spec 0 (ec + i + 1)).
      * assert (ec + i = -1 \/ ec + i = 0) as [->| ->] by lia; reflexivity.
      * replace (- (ec + i)) with (1 + - (ec + i + 1)) by lia.
        rewrite Z.pow_add_r by lia. change (2 ^ 53) with (2 ^ 1 * 2 ^ 52).
        rewrite Z.div_mul_cancel_l; [done | apply Z.pow_nonzero; lia | lia].
  - intros Hup. specialize (Hq'up Hup). rewrite Z.pow_add_r in Hq'up by lia. nia.
  - intros Hgt. apply Hq'gt. rewrite Z.pow_add_r by lia. nia.
Qed.

(** When the literal [c * 2^-W] lies just below [num / den], the truncated
    product is the exact quotient [num * n / den] or one less. *)
Lemma int_of_float_mul_int_floor c W num den delta gap n :
  Zdigits2 (Z.pos c) = 53 -> 0 <= W <= 1074 ->
  0 < den -> 0 <= delta -> 0 < gap ->
  den * Z.pos c = num * 2 ^ W - delta ->
  0 < n < 2 ^ 53 ->
  delta * n <= den * 2 ^ W ->
  num * n + gap <= den * (num * n / den + 1) ->
  let i := Zdigits2 (Z.pos c * n) - 53 in
  i <= W -> den * 2 ^ i < 2 * gap * 2 ^ W ->
  exists t,
    (x ← float_mul_int (S754_finite false c (- W)) n; int_of_float x) = Ok t /\
    num * n / den - 1 <= t <= num * n / den.
Proof.
  intros Hc HW Hden Hdelta Hgap Hlit Hn Herr Hgapn i HiW Hulp.
  destruct (int_of_float_mul_int c (- W) n Hc Hn ltac:(lia) ltac:(fold i; lia))
    as (q' & Heq & Hi0 & Hq'b & Hq'up & _).
  fold i in Heq, Hi0, Hq'b, Hq'up.
  replace (- (- W + i)) with (W - i) in Heq by lia.
  exists (q' / 2 ^ (W - i)). split; [done|].
  set (X := Z.pos c * n) in *. set (F := num * n / den) in *.
  set (A := 2 ^ i) in *. set (B := 2 ^ (W - i)).
  assert (HA : 0 < A) by (apply Z.pow_pos_nonneg; lia).
  assert (HB : 0 < B) by (apply Z.pow_pos_nonneg; lia).
  assert (HM : 2 ^ W = A * B).
  { subst A B. rewrite <- Z.pow_add_r by lia. f_equal. lia. }
  rewrite HM in *.
  assert (HF1 : den * F <= num * n) by (apply Z.mul_div_le; lia).
  assert (HdX : den * X = num * n * (A * B) - delta * n) by (subst X; nia).
  pose proof (Z.div_mod X A ltac:(lia)) as HXq.
  pose proof (Z.mod_pos_bound X A HA) as HXr.
  set (q := X / A) in *. set (r := X mod A) in *.
  split.
  - (* F - 1 <= q / B <= q' / B *)
    transitivity (q / B); [|apply Z.div_le_mono; lia].
    apply Z.div_le_lower_bound; [done|].
    (* B * (F - 1) <= q, from A * B * (F - 1) <= X < A * (q + 1) *)
    assert (den * (A * B * (F - 1)) <= den * X) by nia.
    assert (A * (B * (F - 1)) < A * (q + 1)) by nia.
    assert (B * (F - 1) < q + 1) by (apply (Z.mul_lt_mono_pos_l A); lia).
    lia.
  - assert (q' / B < F + 1); [|lia].
    apply Z.div_lt_upper_bound; [done|].
    apply (Z.mul_lt_mono_pos_l (2 * A * den)); [lia|].
    destruct (Z.eq_dec q' (q + 1)) as [Hup|Hno].
    + specialize (Hq'up Hup). subst q'.
      assert (2 * A * (q + 1) <= 2 * X + A) by lia.
      assert (den * (2 * X + A) < 2 * (num * n + gap) * (A * B)) by nia.
      assert (2 * (num * n + gap) * (A * B) <= 2 * (den * (F + 1)) * (A * B))
        by nia.
      nia.
    + assert (q' = q) as -> by lia.
      assert (den * X < den * (F + 1) * (A * B)) by nia.
      nia.
Qed.

Lemma product_digits c n k :
  0 < n < 2 ^ k -> 0 <= k -> Zdigits2 (Z.pos c) = 53 ->
  Zdigits2 (Z.pos c * n) - 53 <= k.
Proof.
  intros Hn Hk Hc.
  pose proof (Zdigits2_bounds (Z.pos c) ltac:(lia)) as Hcb. rewrite Hc in Hcb.
  pose proof (Zdigits2_bounds (Z.pos c * n) ltac:(lia)) as HXb.
  destruct (Z.le_gt_cases (Zdigits2 (Z.pos c * n) - 53) k) as [|Hgt]; [done|].
  assert (2 ^ (53 + k) <= 2 ^ (Zdigits2 (Z.pos c * n) - 1))
    by (apply Z.pow_le_mono_r; lia).
  rewrite Z.pow_add_r in * by lia. nia.
Qed.

(** [int(0.7 * n)] is [floor(7 n / 10)] or one less. *)
Lemma train_size_bounds (n : nat) :
  Z.of_nat n < 2 ^ 50 ->
  exists train, train_size n = Ok train /\
    7 * Z.of_nat n / 10 - 1 <= train <= 7 * Z.of_nat n / 10.
Proof.
  intros Hn. destruct n as [|n']; [exists 0; by vm_compute|].
  set (n := S n') in *. unfold train_size, lit_0_7.
  pose proof (product_digits 6305039478318694 (Z.of_nat n) 50
                ltac:(lia) ltac:(lia) eq_refl) as Hi.
  assert (H2i : 2 ^ (Zdigits2 (6305039478318694 * Z.of_nat n) - 53) <= 2 ^ 50).
  { apply Z.pow_le_mono_r; lia. }
  apply (int_of_float_mul_int_floor 6305039478318694 53 7 10 4 1);
    try done; try lia.
  pose proof (Z.mul_succ_div_gt (7 * Z.of_nat n) 10 ltac:(lia)). lia.
Qed.

(** [int(0.15 * n)] is [floor(15 n / 100)] or one less. *)
Lemma val_size_bounds (n : nat) :
  Z.of_nat n < 2 ^ 50 ->
  exists val, val_size n = Ok val /\
    15 * Z.of_nat n / 100 - 1 <= val <= 15 * Z.of_nat n / 100.
Proof.
  intros Hn. destruct n as [|n']; [exists 0; by vm_compute|].
  set (n := S n') in *. unfold val_size, lit_0_15.
  pose proof (product_digits 5404319552844595 (Z.of_nat n) 50
                ltac:(lia) ltac:(lia) eq_refl) as Hi.
  assert (H2i : 2 ^ (Zdigits2 (5404319552844595 * Z.of_nat n) - 53) <= 2 ^ 50).
  { apply Z.pow_le_mono_r; lia. }
  apply (int_of_float_mul_int_floor 5404319552844595 55 15 100 20 5);
    try done; try lia.
  assert ((15 * Z.of_nat n) mod 100 <= 95).
  { replace (15 * Z.of_nat n) with (5 * (3 * Z.of_nat n)) by lia.
    change 100 with (5 * 20). rewrite Z.mul_mod_distr_l by lia.
    pose proof (Z.mod_pos_bound (3 * Z.of_nat n) 20 ltac:(lia)). lia. }
  pose proof (Z.div_mod (15 * Z.of_nat n) 100 ltac:(lia)). lia.
Qed.

(** [int(0.15 * n)] is exactly [floor(15 n / 100)]: where 15 n / 100 is an
    integer the product rounds up to it. *)
Lemma val_size_exact (n : nat) :
  Z.of_nat n < 2 ^ 50 -> val_size n = Ok (15 * Z.of_nat n / 100).
Proof.
  intros Hn. destruct (val_size_bounds n Hn) as (val & Hval & Hlo & Hhi).
  rewrite Hval. f_equal.
  destruct n as [|n']; [vm_compute in Hval; by injection Hval as <-|].
  set (n := S n') in *. set (z := Z.of_nat n) in *.
  assert (Hz : 0 < z < 2 ^ 50) by lia.
  assert (val >= 15 * z / 100); [|lia].
  unfold val_size, lit_0_15 in Hval. fold z in Hval.
  pose proof (product_digits 5404319552844595 z 50 ltac:(lia) ltac:(lia) eq_refl)
    as Hi50.
  destruct (int_of_float_mul_int 5404319552844595 (-55) z eq_refl ltac:(lia)
              ltac:(lia) ltac:(lia))
    as (q' & Heq & Hi0 & Hq'b & _ & Hq'gt).
  rewrite Heq in Hval. clear Heq.
  set (X := 5404319552844595 * z) in *.
  set (i := Zdigits2 X - 53) in *.
  replace (- (-55 + i)) with (55 - i) in Hval by lia.
  set (A := 2 ^ i) in *. set (B := 2 ^ (55 - i)) in *.
  assert (val = q' / B) as -> by congruence. clear Hval.
  set (F := 15 * z / 100).
  assert (HA : 0 < A) by (apply Z.pow_pos_nonneg; lia).
  assert (HB : 0 < B) by (apply Z.pow_pos_nonneg; lia).
  assert (HM : A * B = 2 ^ 55).
  { subst A B. rewrite <- Z.pow_add_r by lia. f_equal. lia. }
  pose proof (Z.div_mod (15 * z) 100 ltac:(lia)) as HFq.
  pose proof (Z.mod_pos_bound (15 * z) 100 ltac:(lia)) as HFr.
  fold F in HFq.
  pose proof (Z.div_mod X A ltac:(lia)) as HXq.
  pose proof (Z.mod_pos_bound X A HA) as HXr.
  destruct (Z.eq_dec ((15 * z) mod 100) 0) as [Hdiv|Hndiv].
  - (* 15 z / 100 is an integer: z = 20 k and F = 3 k *)
    set (k := 7 * F - z).
    assert (Hk : z = 20 * k /\ F = 3 * k) by lia.
    destruct Hk as [Hzk HFk].
    assert (HX : X = F * 2 ^ 55 - 4 * k) by (subst X; lia).
    pose proof (Zdigits2_bounds X ltac:(lia)) as HXb.
    replace (Zdigits2 X) with (53 + i) in HXb by lia.
    rewrite Z.pow_add_r in HXb by lia. fold A in HXb.
    assert (HA12 : 12 * k <= A) by lia.
    assert (Hq : X / A = F * B - 1).
    { symmetry. apply (Z.div_unique_pos X A (F * B - 1) (A - 4 * k)); [lia|].
      replace (A * (F * B - 1) + (A - 4 * k)) with (F * (A * B) - 4 * k) by ring.
      rewrite HM. lia. }
    assert (Hr : X mod A = A - 4 * k).
    { symmetry. apply (Z.mod_unique_pos X A (F * B - 1) (A - 4 * k)); [lia|].
      replace (A * (F * B - 1) + (A - 4 * k)) with (F * (A * B) - 4 * k) by ring.
      rewrite HM. lia. }
    rewrite Hq, Hr in *.
    rewrite (Hq'gt ltac:(lia)).
    replace (F * B - 1 + 1) with (F * B) by lia.
    rewrite Z.div_mul by lia. lia.
  - (* otherwise the exact product already reaches the floor *)
    assert (F <= X / A / B); [|pose proof (Z.div_le_mono _ _ B HB (proj1 Hq'b)); lia].
    rewrite Z.div_div by lia. rewrite HM.
    apply Z.div_le_lower_bound; [lia|].
    assert ((15 * z) mod 100 >= 5).
    { revert Hndiv.
      replace (15 * z) with (5 * (3 * z)) by lia.
      change 100 with (5 * 20). rewrite Z.mul_mod_distr_l by lia.
      pose proof (Z.mod_pos_bound (3 * z) 20 ltac:(lia)). lia. }
    subst X. change (2 ^ 50) with 1125899906842624 in Hz.
    change (2 ^ 55) with 36028797018963968. lia.
Qed.

(** Away from the multiples of ten, [int(0.7 * n)] is [floor(7 n / 10)]. *)
Lemma train_size_exact_off_tens (n : nat) :
  Z.of_nat n < 2 ^ 50 -> (7 * Z.of_nat n) mod 10 <> 0 ->
  train_size n = Ok (7 * Z.of_nat n / 10).
Proof.
  intros Hn Hrem. destruct (train_size_bounds n Hn) as (train & Htrain & Hlo & Hhi).
  rewrite Htrain. f_equal.
  destruct n as [|n']; [done|].
  set (n := S n') in *. set (z := Z.of_nat n) in *.
  assert (Hz : 0 < z < 2 ^ 50) by lia.
  assert (train >= 7 * z / 10); [|lia].
  unfold train_size, lit_0_7 in Htrain. fold z in Htrain.
  pose proof (product_digits 6305039478318694 z 50 ltac:(lia) ltac:(lia) eq_refl)
    as Hi50.
  destruct (int_of_float_mul_int 6305039478318694 (-53) z eq_refl ltac:(lia)
              ltac:(lia) ltac:(lia))
    as (q' & Heq & Hi0 & Hq'b & _ & _).
  rewrite Heq in Htrain. clear Heq.
  set (X := 6305039478318694 * z) in *.
  set (i := Zdigits2 X - 53) in *.
  replace (- (-53 + i)) with (53 - i) in Htrain by lia.
  set (A := 2 ^ i) in *. set (B := 2 ^ (53 - i)) in *.
  assert (train = q' / B) as -> by congruence. clear Htrain.
  assert (HA : 0 < A) by (apply Z.pow_pos_nonneg; lia).
  assert (HB : 0 < B) by (apply Z.pow_pos_nonneg; lia).
  assert (HM : A * B = 2 ^ 53).
  { subst A B. rewrite <- Z.pow_add_r by lia. f_equal. lia. }
  assert (7 * z / 10 <= X / A / B);
    [|pose proof (Z.div_le_mono _ _ B HB (proj1 Hq'b)); lia].
  rewrite Z.div_div by lia. rewrite HM.
  apply Z.div_le_lower_bound; [lia|].
  pose proof (Z.div_mod (7 * z) 10 ltac:(lia)) as HFq.
  pose proof (Z.mod_pos_bound (7 * z) 10 ltac:(lia)) as HFr.
  subst X. change (2 ^ 50) with 1125899906842624 in Hz.
  change (2 ^ 53) with 9007199254740992. lia.
Qed.

(** C3, as the code has it: for every dataset of size [n] (below 2^50)
    the script's sizes are train = [int(0.7 * n)], which is floor(0.7 n) or
    one less (and floor(0.7 n) whenever 0.7 n is not an integer), val =
    floor(0.15 n), and test = n - train - val; so train + val + test = n and
    whatever truncation leaves goes to the test split. *)
Theorem split_sizes_truncate (n : nat) :
  Z.of_nat n < 2 ^ 50 ->
  exists train val test,
    split_sizes n = Ok (train, val, test) /\
    7 * Z.of_nat n / 10 - 1 <= train <= 7 * Z.of_nat n / 10 /\
    ((7 * Z.of_nat n) mod 10 <> 0 -> train = 7 * Z.of_nat n / 10) /\
    val = 15 * Z.of_nat n / 100 /\
    test = Z.of_nat n - train - val /\
    train + val + test = Z.of_nat n /\
    snd (exact_split_sizes n) <= test <= snd (exact_split_sizes n) + 1.
Proof.
  intros Hn. destruct (train_size_bounds n Hn) as (train & Htrain & Hlo & Hhi).
  exists train, (15 * Z.of_nat n / 100),
    (Z.of_nat n - train - 15 * Z.of_nat n / 100).
  split.
  { unfold split_sizes. rewrite Htrain, (val_size_exact n Hn). done. }
  repeat split; try lia.
  - intros Hrem. pose proof (train_size_exact_off_tens n Hn Hrem). congruence.
  - unfold exact_split_sizes. simpl. lia.
  - unfold exact_split_sizes. simpl. lia.
Qed.

Lemma split_sizes_truncate_witness :
  exists train val test,
    split_sizes 90 = Ok (train, val, test) /\
    7 * Z.of_nat 90 / 10 - 1 <= train <= 7 * Z.of_nat 90 / 10 /\
    ((7 * Z.of_nat 90) mod 10 <> 0 -> train = 7 * Z.of_nat 90 / 10) /\
    val = 15 * Z.of_nat 90 / 100 /\
    test = Z.of_nat 90 - train - val /\
    train + val + test = Z.of_nat 90 /\
    snd (exact_split_sizes 90) <= test <= snd (exact_split_sizes 90) + 1.
Proof. apply (split_sizes_truncate 90). reflexivity. Defined.

(** ** The batches of a loader *)

(** With a positive batch size every index is yielded, in order. *)
Lemma batched_concat {A : Type} size fuel (l : list A) :
  (0 < size)%nat -> (length l <= fuel)%nat ->
  concat (batched size fuel l) = l.
Proof.
  intros Hsize. revert l. induction fuel as [|fuel IH]; intros l Hlen.
  - destruct l; [done | simpl in Hlen; lia].
  - destruct l as [|x l]; [done|].
    cbn [batched concat]. rewrite IH; [apply take_drop|].
    rewrite length_drop. simpl in *. lia.
Qed.

(** [len(loader)] counts the batches that iterating the loader yields. *)
Lemma batched_length {A : Type} size fuel (l : list A) :
  (0 < size)%nat -> (length l <= fuel)%nat ->
  length (batched size fuel l) = ((length l + size - 1) / size)%nat.
Proof.
  intros Hsize. revert l. induction fuel as [|fuel IH]; intros l Hlen.
  - destruct l; [|simpl in Hlen; lia]. simpl.
    symmetry. apply Nat.div_small. lia.
  - destruct l as [|x l]; [simpl; symmetry; apply Nat.div_small; lia|].
    cbn [batched length]. rewrite IH by (rewrite length_drop; simpl in *; lia).
    rewrite length_drop. cbn [length].
    destruct (Nat.le_gt_cases size (S (length l))) as [Hge|Hlt].
    + replace (S (length l) + size - 1)%nat
        with (S (length l) - size + size - 1 + 1 * size)%nat by lia.
      rewrite Nat.div_add by lia. lia.
    + replace (S (length l) - size)%nat with 0%nat by lia.
      rewrite (Nat.div_small (0 + size - 1)) by lia.
      apply (Nat.div_unique _ _ 1 (length l)); lia.
Qed.

Lemma DataLoader_len_batches `{Torch} dl draw :
  (0 < dl_batch_size dl)%nat ->
  length (DataLoader_batches dl draw) = DataLoader_len dl.
Proof.
  intros Hsize. unfold DataLoader_batches, DataLoader_len.
  rewrite batched_length; [|done|].
  - destruct (dl_shuffle dl); by rewrite ?length_map, length_seq.
  - destruct (dl_shuffle dl); by rewrite ?length_map, length_seq.
Qed.

(** ** The tokens of a line *)

Lemma spaceless_snoc w c :
  spaceless w = true -> isspace c = false ->
  spaceless (w +:+ String c EmptyString) = true.
Proof.
  intros Hw Hc. induction w as [|c' w IH]; simpl in *.
  - by rewrite Hc.
  - apply andb_prop in Hw as [-> Hw]. by rewrite IH.
Qed.

Lemma split_go_tokens s w :
  spaceless w = true ->
  Forall (fun tok => tok <> EmptyString /\ spaceless tok = true) (split_go s w).
Proof.
  revert w. induction s as [|c s IH]; intros w Hw; simpl.
  - destruct w; repeat constructor; done.
  - destruct (isspace c) eqn:Hc.
    + destruct w as [|c' w]; [by apply IH|].
      constructor; [done | by apply IH].
    + apply IH. by apply spaceless_snoc.
Qed.

(** Every token is a non-empty run of non-space characters. *)
Lemma split_tokens s :
  Forall (fun tok => tok <> EmptyString /\ spaceless tok = true) (split s).
Proof. by apply split_go_tokens. Qed.

(* ===================================================================== *)
(** * Further properties of the code *)
(* ===================================================================== *)

(** ** Tokenising: [strip] before [split], and written lines *)

Lemma split_go_lstrip s :
  split_go (lstrip s) EmptyString = split_go s EmptyString.
Proof.
  induction s as [|c s IH]; simpl; [done|].
  destruct (isspace c) eqn:Hc; simpl; [done|]. by rewrite Hc.
Qed.

Lemma split_go_end w :
  split_go EmptyString w = match w with EmptyString => [] | _ => [w] end.
Proof. done. Qed.

Lemma split_go_rstrip s : forall w, split_go (rstrip s) w = split_go s w.
Proof.
  induction s as [|c s IH]; intros w; simpl; [done|].
  destruct (rstrip s) as [|c' r] eqn:Hr.
  - destruct (isspace c) eqn:Hc; simpl.
    + rewrite <- IH. simpl. by destruct w.
    + rewrite Hc. by rewrite <- IH.
  - simpl. destruct (isspace c); [|apply IH].
    destruct w; by rewrite <- IH.
Qed.

Lemma split_strip s : split (strip s) = split s.
Proof. unfold split, strip. by rewrite split_go_rstrip, split_go_lstrip. Qed.

Lemma string_app_cons c s t : String c s +:+ t = String c (s +:+ t).
Proof. done. Qed.

Lemma string_app_snoc w c s :
  (w +:+ String c EmptyString) +:+ s = w +:+ String c s.
Proof.
  induction w as [|c' w IH]; [done|].
  by rewrite !string_app_cons, IH.
Qed.

Lemma string_app_nil s : s +:+ EmptyString = s.
Proof.
  induction s as [|c s IH]; [done|]. by rewrite string_app_cons, IH.
Qed.

(** A run of non-space characters is read into the current token. *)
Lemma split_go_run tok s : forall w,
  spaceless tok = true -> split_go (tok +:+ s) w = split_go s (w +:+ tok).
Proof.
  induction tok as [|c tok IH]; intros w Htok.
  - by rewrite string_app_nil.
  - simpl in Htok. apply andb_prop in Htok as [Hc Htok].
    apply negb_true_iff in Hc.
    rewrite string_app_cons. simpl. rewrite Hc, IH by done.
    by rewrite string_app_snoc.
Qed.

Lemma split_go_format_labels labels : forall w,
  token w -> Forall token labels ->
  split_go (format_labels labels) w = w :: labels.
Proof.
  induction labels as [|label labels IH]; intros w [Hw Hsp] Hall; simpl.
  - by destruct w.
  - inversion Hall as [|? ? Hlabel Hrest]; subst.
    destruct w as [|c w]; [done|].
    f_equal. rewrite split_go_run by apply Hlabel. simpl. by apply IH.
Qed.

Lemma split_format_line sample :
  token (fst sample) -> Forall token (snd sample) ->
  split (strip (format_line sample)) = fst sample :: snd sample.
Proof.
  intros Hname Hlabels. rewrite split_strip. unfold split, format_line.
  rewrite split_go_run by apply Hname. simpl.
  by apply split_go_format_labels.
Qed.

(** X1: tokenising a line (line 43).  The [strip] before [split] changes
    nothing, and every token is a non-empty run of non-whitespace
    characters. *)
Theorem tokens_of_a_line line :
  split (strip line) = split line /\
  Forall token (split (strip line)).
Proof.
  split; [apply split_strip|]. rewrite split_strip. apply split_tokens.
Qed.

Lemma init_loop_written `{Platform} images_dir samples : forall self,
  Forall (fun sample => token (fst sample) /\ Forall token (snd sample))
         samples ->
  for_each (init_line images_dir) (map format_line samples) self =
  Ok (mkDataset
        (images_path self
           ++ map (fun sample => os_path_join images_dir (fst sample)) samples)
        (images_labels self ++ map snd samples)
        (transform self) (num_classes self) (label_map self)).
Proof.
  induction samples as [|sample samples IH]; intros self Hall; simpl.
  - rewrite !app_nil_r. by destruct self.
  - inversion Hall as [|? ? [Hname Hlabels] Hrest]; subst.
    rewrite init_line_unfold, split_format_line by done.
    unfold_bind. rewrite IH by done. simpl.
    by rewrite <- !app_assoc.
Qed.

(** X2: reading back a written label file (lines 41-50).  If every line is
    a file name followed by its labels, each after one space, and ends with a
    newline, the constructor records exactly these samples, in file order:
    the joined path and the label list of each. *)
Theorem written_label_file_is_read_back `{Platform} images_dir samples tr nc :
  Forall (fun sample => token (fst sample) /\ Forall token (snd sample))
         samples ->
  MultiLabelImageDataset_init images_dir (map format_line samples) tr nc =
  Ok (mkDataset
        (map (fun sample => os_path_join images_dir (fst sample)) samples)
        (map snd samples) tr nc label_map_literal).
Proof.
  intros Hall. unfold MultiLabelImageDataset_init.
  by rewrite init_loop_written.
Qed.

Lemma written_label_file_is_read_back_witness :
  MultiLabelImageDataset_init (H := posix_host) "data"
    (map format_line [("a.jpg", ["fire"; "smoke"]); ("b.jpg", [])]) None 4 =
  Ok (mkDataset ["data/a.jpg"; "data/b.jpg"] [["fire"; "smoke"]; []]
                None 4 label_map_literal).
Proof.
  apply (written_label_file_is_read_back (H := posix_host) "data"
           [("a.jpg", ["fire"; "smoke"]); ("b.jpg", [])] None 4).
  repeat constructor; done.
Defined.

(** X3: when the constructor completes (lines 26-53).  It returns a dataset
    exactly when no line of the label file is blank; the dataset then holds
    one path and one label list per line, so [__len__] is the number of
    lines, and it stores the transform, the class count and the fixed label
    map. *)
Theorem constructor_completes_iff_no_blank_line `{Platform} images_dir lines
    tr nc :
  ((exists ds, MultiLabelImageDataset_init images_dir lines tr nc = Ok ds) <->
   Forall (fun line => blank line = false) lines) /\
  (forall ds, MultiLabelImageDataset_init images_dir lines tr nc = Ok ds ->
     MultiLabelImageDataset_len ds = length lines /\
     length (images_labels ds) = length lines /\
     transform ds = tr /\ num_classes ds = nc /\
     label_map ds = label_map_literal).
Proof.
  split; [apply init_completes|].
  intros ds Hds. destruct (init_ok _ _ _ _ _ Hds) as (Hp & Hl & ? & ? & ?).
  apply Forall2_length in Hp, Hl. unfold MultiLabelImageDataset_len.
  repeat split; try done; lia.
Qed.

Lemma constructor_completes_iff_no_blank_line_witness :
  ((exists ds, MultiLabelImageDataset_init (H := posix_host) "data"
                 sample_lines None 4 = Ok ds) <->
   Forall (fun line => blank line = false) sample_lines) /\
  (forall ds, MultiLabelImageDataset_init (H := posix_host) "data"
                sample_lines None 4 = Ok ds ->
     MultiLabelImageDataset_len ds = length sample_lines /\
     length (images_labels ds) = length sample_lines /\
     transform ds = None /\ num_classes ds = 4 /\
     label_map ds = label_map_literal).
Proof.
  exact (constructor_completes_iff_no_blank_line (H := posix_host) "data"
           sample_lines None 4).
Defined.

(** ** Indexing the dataset *)

Lemma list_getitem_out_of_range {A : Type} (l : list A) idx :
  Z.of_nat (length l) <= idx \/ idx < - Z.of_nat (length l) ->
  list_getitem l idx = Raise IndexError.
Proof.
  intros Hidx. unfold list_getitem.
  destruct (Z.ltb_spec idx 0).
  - destruct (Z.leb_spec 0 (idx + Z.of_nat (length l))); [|done].
    destruct (Z.ltb_spec (idx + Z.of_nat (length l)) (Z.of_nat (length l)));
      [lia | done].
  - destruct (Z.leb_spec 0 idx); [|done].
    destruct (Z.ltb_spec idx (Z.of_nat (length l))); [lia | done].
Qed.

Lemma list_getitem_negative {A : Type} (l : list A) idx :
  - Z.of_nat (length l) <= idx < 0 ->
  list_getitem l idx = list_getitem l (idx + Z.of_nat (length l)).
Proof.
  intros Hidx. unfold list_getitem.
  destruct (Z.ltb_spec idx 0); [|lia].
  destruct (Z.ltb_spec (idx + Z.of_nat (length l)) 0); [lia | done].
Qed.

(** X4: the index of [__getitem__] (lines 55-57).  An index outside
    [-len, len) raises [IndexError] before any image is opened; a negative
    index counts from the end, [ds[idx]] being [ds[idx + len]]. *)
Theorem getitem_index_range `{Platform} self idx :
  length (images_labels self) = length (images_path self) ->
  let n := Z.of_nat (MultiLabelImageDataset_len self) in
  (n <= idx \/ idx < - n ->
     MultiLabelImageDataset_getitem self idx = Raise IndexError) /\
  (- n <= idx < 0 ->
     MultiLabelImageDataset_getitem self idx =
     MultiLabelImageDataset_getitem self (idx + n)).
Proof.
  intros Hlen n. subst n. unfold MultiLabelImageDataset_len.
  unfold MultiLabelImageDataset_getitem. split; intros Hidx.
  - rewrite (list_getitem_out_of_range (images_path self) idx Hidx).
    by unfold_bind.
  - rewrite (list_getitem_negative (images_path self)) by done.
    rewrite (list_getitem_negative (images_labels self)) by (rewrite Hlen; done).
    by rewrite Hlen.
Qed.

Lemma getitem_index_range_witness :
  (4 <= -1 \/ -1 < - 4 ->
     MultiLabelImageDataset_getitem (H := posix_host) sample_dataset (-1)
     = Raise IndexError) /\
  (- 4 <= -1 < 0 ->
     MultiLabelImageDataset_getitem (H := posix_host) sample_dataset (-1) =
     MultiLabelImageDataset_getitem (H := posix_host) sample_dataset (-1 + 4)).
Proof.
  apply (getitem_index_range (H := posix_host) sample_dataset (-1)).
  reflexivity.
Defined.

(** ** The label vector for any class count *)

Lemma tensor_setitem_1d t (n : nat) k v :
  shape t = [n] -> length (data t) = n -> 0 <= k < Z.of_nat n ->
  tensor_setitem t k v = Ok (mkTensor [n] (<[Z.to_nat k := v]> (data t))).
Proof.
  intros Hshape Hlen Hk. unfold tensor_setitem. rewrite Hshape.
  destruct (Z.ltb_spec k 0); [lia|].
  destruct (Z.leb_spec 0 k); [|lia].
  destruct (Z.ltb_spec k (Z.of_nat n)); [|lia]. simpl.
  rewrite Nat.mul_1_r, Nat.add_1_r. do 2 f_equal.
  symmetry. apply insert_take_drop. lia.
Qed.

Lemma tensor_setitem_1d_out t (n : nat) k v :
  shape t = [n] -> Z.of_nat n <= k -> tensor_setitem t k v = Raise IndexError.
Proof.
  intros Hshape Hk. unfold tensor_setitem. rewrite Hshape.
  destruct (Z.ltb_spec k 0); [lia|].
  destruct (Z.leb_spec 0 k); [|lia].
  destruct (Z.ltb_spec k (Z.of_nat n)); [lia | done].
Qed.

Lemma vocabulary_lookup_inj (i j : nat) name :
  vocabulary !! i = Some name -> vocabulary !! j = Some name -> i = j.
Proof.
  unfold vocabulary.
  destruct i as [|[|[|[|i]]]], j as [|[|[|[|j]]]]; simpl; intros H1 H2;
    try done; rewrite <- H1 in H2; discriminate.
Qed.

Lemma class_present_nil j : class_present [] j = false.
Proof.
  unfold class_present. destruct (vocabulary !! j); [|done].
  apply bool_decide_eq_false. set_solver.
Qed.

Lemma class_present_cons_unknown label labels j :
  label ∉ vocabulary ->
  class_present (label :: labels) j = class_present labels j.
Proof.
  intros Hnot. unfold class_present.
  destruct (vocabulary !! j) as [name|] eqn:Hj; [|done].
  assert (name <> label).
  { intros ->. apply Hnot. apply list_elem_of_lookup. by exists j. }
  apply bool_decide_ext. set_solver.
Qed.

Lemma class_present_cons_known label labels (i j : nat) :
  vocabulary !! i = Some label ->
  class_present (label :: labels) j =
  if decide (i = j) then true else class_present labels j.
Proof.
  intros Hi. unfold class_present. case_decide as Hij.
  - subst j. rewrite Hi. apply bool_decide_eq_true. set_solver.
  - destruct (vocabulary !! j) as [name|] eqn:Hj; [|done].
    assert (name <> label).
    { intros ->. apply Hij. by eapply vocabulary_lookup_inj. }
    apply bool_decide_ext. set_solver.
Qed.

Lemma vocabulary_lookup_lt (i : nat) name :
  vocabulary !! i = Some name -> (i < 4)%nat.
Proof. intros Hi. apply lookup_lt_Some in Hi. exact Hi. Qed.

(** With at least four classes the loop of lines 62-64 never fails. *)
Lemma mark_labels_wide self (n : nat) labels : forall lv,
  label_map self = label_map_literal ->
  shape lv = [n] -> length (data lv) = n -> (4 <= n)%nat ->
  exists lv',
    for_each (mark_label self) labels lv = Ok lv' /\
    shape lv' = [n] /\ length (data lv') = n /\
    forall j : nat, (j < n)%nat ->
      data lv' !! j =
      if class_present labels j then Some f32_one else data lv !! j.
Proof.
  induction labels as [|label labels IH]; intros lv Hmap Hshape Hlen Hn.
  - exists lv. repeat split; try done. intros j _. by rewrite class_present_nil.
  - simpl. destruct (label_map_literal !! label) as [k|] eqn:Hk.
    + pose proof Hk as Hk'.
      apply label_map_literal_lookup in Hk' as (i & -> & Hi).
      pose proof (vocabulary_lookup_lt _ _ Hi) as Hi4.
      assert (Hstep : mark_label self lv label =
                      Ok (mkTensor [n] (<[i := f32_one]> (data lv)))).
      { unfold mark_label. rewrite Hmap, Hk.
        rewrite (tensor_setitem_1d lv n) by (done || lia).
        by rewrite Nat2Z.id. }
      rewrite Hstep. unfold_bind.
      destruct (IH (mkTensor [n] (<[i := f32_one]> (data lv))) Hmap eq_refl)
        as (lv' & Hrun & Hs & Hl & Hdata);
        [simpl; by rewrite length_insert | done |].
      exists lv'. repeat split; try done.
      intros j Hj. rewrite (Hdata j Hj), (class_present_cons_known _ _ _ j Hi).
      simpl. case_decide as Hij.
      * subst j. destruct (class_present labels i); [done|].
        apply list_lookup_insert_eq. lia.
      * destruct (class_present labels j); [done|].
        by apply list_lookup_insert_ne.
    + rewrite (mark_label_unknown self lv label) by (by rewrite Hmap).
      apply label_map_literal_unknown in Hk. unfold_bind.
      destruct (IH lv Hmap Hshape Hlen Hn) as (lv' & Hrun & Hs & Hl & Hdata).
      exists lv'. repeat split; try done.
      intros j Hj. by rewrite (Hdata j Hj), class_present_cons_unknown.
Qed.

Lemma make_label_vector_wide self labels (n : nat) :
  label_map self = label_map_literal ->
  num_classes self = Z.of_nat n -> (4 <= n)%nat ->
  exists lv,
    make_label_vector self labels = Ok lv /\
    shape lv = [n] /\ length (data lv) = n /\
    forall j : nat, (j < n)%nat ->
      data lv !! j =
      Some (if class_present labels j then f32_one else f32_zero).
Proof.
  intros Hmap Hnc Hn. unfold make_label_vector, torch_zeros. rewrite Hnc.
  destruct (Z.ltb_spec (Z.of_nat n) 0); [lia|]. rewrite Nat2Z.id.
  unfold_bind.
  destruct (mark_labels_wide self n labels
              (mkTensor [n] (replicate n f32_zero)) Hmap eq_refl)
    as (lv & Hrun & Hs & Hl & Hdata);
    [simpl; by rewrite length_replicate | done |].
  exists lv. repeat split; try done.
  intros j Hj. rewrite (Hdata j Hj). simpl.
  destruct (class_present labels j); [done|].
  by apply lookup_replicate_2.
Qed.

(** X5: the label vector for a larger class count (lines 26, 61-64).  When
    the dataset is built with [num_classes] at least four, the vector has
    [num_classes] entries: entry [j] is 1 when the vocabulary name of class
    [j] is among the labels and 0 otherwise, so every entry from index 4 on
    is 0; nothing is raised. *)
Theorem label_vector_with_more_classes self labels (n : nat) :
  label_map self = label_map_literal ->
  num_classes self = Z.of_nat n -> (4 <= n)%nat ->
  exists lv,
    make_label_vector self labels = Ok lv /\
    shape lv = [n] /\ length (data lv) = n /\
    (forall j : nat, (j < n)%nat ->
       data lv !! j =
       Some (if class_present labels j then f32_one else f32_zero)) /\
    (forall j : nat, (4 <= j < n)%nat -> data lv !! j = Some f32_zero).
Proof.
  intros Hmap Hnc Hn.
  destruct (make_label_vector_wide self labels n Hmap Hnc Hn)
    as (lv & Hlv & Hs & Hl & Hdata).
  exists lv. repeat split; try done.
  intros j [Hj4 Hjn]. rewrite (Hdata j Hjn). unfold class_present.
  by rewrite (lookup_ge_None_2 vocabulary j).
Qed.

Lemma label_vector_with_more_classes_witness :
  let self := mkDataset [] [] None 6 label_map_literal in
  exists lv,
    make_label_vector self ["cloud"; "haze"] = Ok lv /\
    shape lv = [6%nat] /\ length (data lv) = 6%nat /\
    (forall j : nat, (j < 6)%nat ->
       data lv !! j =
       Some (if class_present ["cloud"; "haze"] j then f32_one else f32_zero)) /\
    (forall j : nat, (4 <= j < 6)%nat -> data lv !! j = Some f32_zero).
Proof.
  apply (label_vector_with_more_classes
           (mkDataset [] [] None 6 label_map_literal) ["cloud"; "haze"] 6);
    [reflexivity | reflexivity | lia].
Defined.

(** X6: the label vector depends on the set of labels only (lines 61-64).
    Two label lists with the same members (whatever their order and
    repetitions) give the same vector. *)
Theorem label_vector_ignores_order_and_repeats self labels1 labels2 (n : nat) :
  label_map self = label_map_literal ->
  num_classes self = Z.of_nat n -> (4 <= n)%nat ->
  (forall label, label ∈ labels1 <-> label ∈ labels2) ->
  make_label_vector self labels1 = make_label_vector self labels2.
Proof.
  intros Hmap Hnc Hn Hsame.
  destruct (make_label_vector_wide self labels1 n Hmap Hnc Hn)
    as ([s1 d1] & -> & Hs1 & Hl1 & Hd1).
  destruct (make_label_vector_wide self labels2 n Hmap Hnc Hn)
    as ([s2 d2] & -> & Hs2 & Hl2 & Hd2).
  simpl in *. subst s1 s2. do 2 f_equal.
  apply list_eq. intros j.
  destruct (Nat.lt_ge_cases j n) as [Hj|Hj].
  - rewrite (Hd1 j Hj), (Hd2 j Hj).
    assert (class_present labels1 j = class_present labels2 j) as ->; [|done].
    unfold class_present.
    destruct (vocabulary !! j); [|done]. apply bool_decide_ext, Hsame.
  - by rewrite !lookup_ge_None_2 by lia.
Qed.

Lemma label_vector_ignores_order_and_repeats_witness :
  make_label_vector sample_dataset ["smoke"; "fire"; "smoke"] =
  make_label_vector sample_dataset ["fire"; "smoke"].
Proof.
  apply (label_vector_ignores_order_and_repeats sample_dataset
           ["smoke"; "fire"; "smoke"] ["fire"; "smoke"] 4);
    [reflexivity | reflexivity | lia | set_solver].
Defined.

Lemma mark_label_shape self lv (n : nat) label :
  label_map self = label_map_literal -> shape lv = [n] ->
  mark_label self lv label = Raise IndexError \/
  exists lv', mark_label self lv label = Ok lv' /\ shape lv' = [n].
Proof.
  intros Hmap Hshape. unfold mark_label. rewrite Hmap.
  destruct (label_map_literal !! label) as [k|] eqn:Hk; [|right; eauto].
  apply label_map_literal_lookup in Hk as (i & -> & _).
  unfold tensor_setitem. rewrite Hshape.
  destruct (Z.ltb_spec (Z.of_nat i) 0); [lia|].
  destruct (Z.leb_spec 0 (Z.of_nat i)); [|lia].
  destruct (Z.ltb_spec (Z.of_nat i) (Z.of_nat n)); simpl; [|by left].
  right. eexists. by split.
Qed.

Lemma mark_labels_narrow self (n : nat) labels label k : forall lv,
  label_map self = label_map_literal -> shape lv = [n] ->
  label ∈ labels -> label_map_literal !! label = Some k -> Z.of_nat n <= k ->
  for_each (mark_label self) labels lv = Raise IndexError.
Proof.
  induction labels as [|l labels IH]; intros lv Hmap Hshape Hin Hk Hnk.
  - by apply elem_of_nil in Hin.
  - simpl. unfold_bind.
    destruct (mark_label_shape self lv n l Hmap Hshape)
      as [-> | (lv' & Hstep & Hshape')]; [done|].
    apply elem_of_cons in Hin as [<- | Hin].
    + unfold mark_label in Hstep. rewrite Hmap, Hk in Hstep.
      by rewrite (tensor_setitem_1d_out lv n) in Hstep.
    + rewrite Hstep. by apply IH.
Qed.

(** X7: too few classes (lines 26, 61-64).  When the dataset is built with
    fewer classes than a label's index needs (for instance three classes and
    the label none), building the vector raises [IndexError]; a negative
    class count makes [torch.zeros] raise [RuntimeError]. *)
Theorem label_vector_with_too_few_classes self labels label k :
  label_map self = label_map_literal ->
  label ∈ labels -> label_map self !! label = Some k ->
  num_classes self <= k ->
  make_label_vector self labels =
  Raise (if num_classes self <? 0 then RuntimeError else IndexError).
Proof.
  intros Hmap Hin Hk Hnk. unfold make_label_vector, torch_zeros.
  destruct (Z.ltb_spec (num_classes self) 0); [done|].
  unfold_bind. rewrite Hmap in Hk.
  eapply (mark_labels_narrow self (Z.to_nat (num_classes self))); try done.
  lia.
Qed.

Lemma label_vector_with_too_few_classes_witness :
  let self := mkDataset [] [] None 3 label_map_literal in
  make_label_vector self ["fire"; "none"] =
  Raise (if num_classes self <? 0 then RuntimeError else IndexError).
Proof.
  apply (label_vector_with_too_few_classes
           (mkDataset [] [] None 3 label_map_literal) ["fire"; "none"]
           "none" 3); [reflexivity | set_solver | reflexivity | reflexivity].
Defined.

(** ** The sizes and the members of the three splits *)

Lemma split_sizes_bounds (n : nat) :
  Z.of_nat n < 2 ^ 50 ->
  exists train,
    split_sizes n
      = Ok (train, 15 * Z.of_nat n / 100,
            Z.of_nat n - train - 15 * Z.of_nat n / 100) /\
    7 * Z.of_nat n / 10 - 1 <= train <= 7 * Z.of_nat n / 10.
Proof.
  intros Hn. destruct (train_size_bounds n Hn) as (train & Htrain & Hb).
  exists train. split; [|done].
  unfold split_sizes. by rewrite Htrain, (val_size_exact n Hn).
Qed.

Lemma train_size_small :
  train_size 0 = Ok 0 /\ train_size 1 = Ok 0 /\ train_size 2 = Ok 1.
Proof. repeat split; reflexivity. Qed.

(** X8: which datasets leave the training split empty (line 92).  For a
    dataset of [n] samples, [int(0.7 * n)] is 0 exactly when [n] is 0 or 1;
    from two samples on the training split is not empty. *)
Theorem training_split_empty_iff (n : nat) :
  Z.of_nat n < 2 ^ 50 ->
  (train_size n = Ok 0 <-> (n <= 1)%nat).
Proof.
  intros Hn. destruct train_size_small as (H0 & H1 & H2).
  destruct n as [|[|[|n]]].
  - split; [lia | done].
  - split; [lia | done].
  - rewrite H2. split; [discriminate | lia].
  - destruct (train_size_bounds _ Hn) as (train & -> & Hlo & Hhi).
    split; [|lia]. intros [= ->].
    assert (3 <= Z.of_nat (S (S (S n)))) by lia.
    assert (2 <= 7 * Z.of_nat (S (S (S n))) / 10)
      by (apply Z.div_le_lower_bound; lia).
    lia.
Qed.

Lemma training_split_empty_iff_witness :
  train_size 1 = Ok 0 <-> (1 <= 1)%nat.
Proof. apply (training_split_empty_iff 1). reflexivity. Defined.

(** X9: how the three sizes compare (lines 92-94).  All three are
    non-negative; the validation split is empty exactly below seven samples;
    the test split is never smaller than the validation split; and from two
    samples on the training split is at least as large as the test split. *)
Theorem split_sizes_order (n : nat) :
  Z.of_nat n < 2 ^ 50 ->
  exists train val test,
    split_sizes n = Ok (train, val, test) /\
    0 <= train /\ 0 <= val <= test /\
    (val = 0 <-> (n < 7)%nat) /\
    ((2 <= n)%nat -> test <= train).
Proof.
  intros Hn. destruct (split_sizes_bounds n Hn) as (train & Hsplit & Hlo & Hhi).
  exists train, (15 * Z.of_nat n / 100),
    (Z.of_nat n - train - 15 * Z.of_nat n / 100).
  split; [done|].
  destruct (Nat.lt_ge_cases n 9) as [Hsmall|Hbig].
  - clear Hlo Hhi.
    do 9 (destruct n as [|n];
          [vm_compute in Hsplit; injection Hsplit as <-;
           repeat split; vm_compute; intros; try done; try lia
          |]).
    lia.
  - repeat split; intros; Z.div_mod_to_equations; lia.
Qed.

Lemma split_sizes_order_witness :
  exists train val test,
    split_sizes 90 = Ok (train, val, test) /\
    0 <= train /\ 0 <= val <= test /\
    (val = 0 <-> (90 < 7)%nat) /\
    ((2 <= 90)%nat -> test <= train).
Proof. apply (split_sizes_order 90). reflexivity. Defined.

Lemma random_split_three `{Torch} dataset (a b c : Z) :
  0 <= a -> 0 <= b -> 0 <= c ->
  a + b + c = Z.of_nat (MultiLabelImageDataset_len dataset) ->
  let n := MultiLabelImageDataset_len dataset in
  let perm := map (fun i => Z.of_nat (randperm 0 n i)) (seq 0 n) in
  exists s1 s2 s3,
    random_split dataset [a; b; c] = Ok [s1; s2; s3] /\
    sub_dataset s1 = dataset /\ sub_dataset s2 = dataset /\
    sub_dataset s3 = dataset /\
    Z.of_nat (Subset_len s1) = a /\ Z.of_nat (Subset_len s2) = b /\
    Z.of_nat (Subset_len s3) = c /\
    sub_indices s1 ++ sub_indices s2 ++ sub_indices s3 = perm.
Proof.
  intros Ha Hb Hc Hsum n perm. unfold random_split. fold n. simpl foldr.
  destruct (Z.eqb_spec (a + (b + (c + 0))) (Z.of_nat n)); [|lia].
  fold perm. simpl.
  assert (Hperm : length perm = n) by (subst perm; by rewrite length_map, length_seq).
  eexists _, _, _. split; [done|]. unfold Subset_len. simpl.
  rewrite !length_take, !length_drop, Hperm.
  repeat split; try lia.
  rewrite (take_ge (drop _ (drop _ perm))) by (rewrite !length_drop; lia).
  by rewrite !take_drop.
Qed.

(** X10: what [random_split] hands to the loaders (lines 92-95).  For the
    sizes computed by the script the call succeeds with three subsets of the
    same dataset, of sizes train, val and test, whose index lists are
    consecutive pieces of the drawn permutation; so when the draw is a
    permutation of the indices (no repetition, all in range), every sample
    lies in exactly one split. *)
Theorem random_split_partitions `{Torch} dataset :
  let n := MultiLabelImageDataset_len dataset in
  Z.of_nat n < 2 ^ 50 ->
  exists train val test s1 s2 s3,
    split_sizes n = Ok (train, val, test) /\
    random_split dataset [train; val; test] = Ok [s1; s2; s3] /\
    sub_dataset s1 = dataset /\ sub_dataset s2 = dataset /\
    sub_dataset s3 = dataset /\
    Z.of_nat (Subset_len s1) = train /\ Z.of_nat (Subset_len s2) = val /\
    Z.of_nat (Subset_len s3) = test /\
    ((forall i j, (i < n)%nat -> (j < n)%nat ->
        randperm 0 n i = randperm 0 n j -> i = j) ->
     NoDup (sub_indices s1 ++ sub_indices s2 ++ sub_indices s3)) /\
    ((forall i, (i < n)%nat -> (randperm 0 n i < n)%nat) ->
     Forall (fun k => 0 <= k < Z.of_nat n)
            (sub_indices s1 ++ sub_indices s2 ++ sub_indices s3)) /\
    length (sub_indices s1 ++ sub_indices s2 ++ sub_indices s3) = n.
Proof.
  intros n Hn. destruct (split_sizes_bounds n Hn) as (train & Hsplit & Hlo & Hhi).
  destruct (random_split_three dataset train (15 * Z.of_nat n / 100)
              (Z.of_nat n - train - 15 * Z.of_nat n / 100))
    as (s1 & s2 & s3 & Hrs & Hd1 & Hd2 & Hd3 & Hl1 & Hl2 & Hl3 & Hperm);
    fold n; try (Z.div_mod_to_equations; lia).
  { destruct (Nat.eq_dec n 0%nat) as [Hz|Hz].
    - rewrite Hz in Hsplit. vm_compute in Hsplit. injection Hsplit as <-. lia.
    - destruct (Nat.eq_dec n 1%nat) as [H1|H1].
      + rewrite H1 in Hsplit. vm_compute in Hsplit.
        injection Hsplit as <-. lia.
      + assert (1 <= 7 * Z.of_nat n / 10)
          by (apply Z.div_le_lower_bound; lia). lia. }
  fold n in Hperm.
  exists train, (15 * Z.of_nat n / 100),
    (Z.of_nat n - train - 15 * Z.of_nat n / 100), s1, s2, s3.
  repeat split; try done; rewrite Hperm.
  - intros Hinj. apply NoDup_fmap_2_strong; [|apply NoDup_seq].
    intros i j Hi%elem_of_seq Hj%elem_of_seq Heq.
    apply Hinj; lia.
  - intros Hrange. apply Forall_fmap, Forall_forall.
    intros i Hi%elem_of_seq. simpl. specialize (Hrange i). lia.
  - by rewrite length_map, length_seq.
Qed.

Lemma random_split_partitions_witness :
  exists train val test s1 s2 s3,
    split_sizes 4 = Ok (train, val, test) /\
    random_split (H := toy_torch) sample_dataset [train; val; test]
      = Ok [s1; s2; s3] /\
    sub_dataset s1 = sample_dataset /\ sub_dataset s2 = sample_dataset /\
    sub_dataset s3 = sample_dataset /\
    Z.of_nat (Subset_len s1) = train /\ Z.of_nat (Subset_len s2) = val /\
    Z.of_nat (Subset_len s3) = test /\
    ((forall i j, (i < 4)%nat -> (j < 4)%nat ->
        randperm (Torch := toy_torch) 0 4 i = randperm 0 4 j -> i = j) ->
     NoDup (sub_indices s1 ++ sub_indices s2 ++ sub_indices s3)) /\
    ((forall i, (i < 4)%nat -> (randperm (Torch := toy_torch) 0 4 i < 4)%nat) ->
     Forall (fun k => 0 <= k < Z.of_nat 4)
            (sub_indices s1 ++ sub_indices s2 ++ sub_indices s3)) /\
    length (sub_indices s1 ++ sub_indices s2 ++ sub_indices s3) = 4%nat.
Proof.
  apply (random_split_partitions (H := toy_torch) sample_dataset). reflexivity.
Defined.

(** ** The batches, and what the loops do with them *)

Lemma batched_sizes {A : Type} size fuel (l : list A) :
  (0 < size)%nat ->
  Forall (fun b => (0 < length b <= size)%nat) (batched size fuel l).
Proof.
  intros Hsize. revert l. induction fuel as [|fuel IH]; intros l.
  - destruct l; constructor.
  - destruct l as [|x l]; [constructor|].
    cbn [batched]. constructor; [|apply IH].
    rewrite length_take. simpl. lia.
Qed.

(** X11: the batches of a loader (lines 97-100).  With a positive batch
    size, one pass yields [len(loader)] batches, each of at least one and at
    most [batch_size] indices, and together they are the sampler's order with
    nothing lost or repeated: the dataset's own order when [shuffle] is
    off. *)
Theorem loader_batches_cover_the_order `{Torch} dl draw :
  (0 < dl_batch_size dl)%nat ->
  let n := Subset_len (dl_dataset dl) in
  let batches := DataLoader_batches dl draw in
  length batches = DataLoader_len dl /\
  Forall (fun b => (0 < length b <= dl_batch_size dl)%nat) batches /\
  concat batches =
    (if dl_shuffle dl then map (randperm draw n) (seq 0 n) else seq 0 n) /\
  length (concat batches) = n.
Proof.
  intros Hsize n batches. subst batches.
  split; [by apply DataLoader_len_batches|].
  unfold DataLoader_batches. fold n.
  split; [by apply batched_sizes|].
  assert (Hlen : length (if dl_shuffle dl
                         then map (randperm draw n) (seq 0 n) else seq 0 n) = n).
  { destruct (dl_shuffle dl); by rewrite ?length_map, length_seq. }
  rewrite batched_concat by (done || lia). done.
Qed.

Lemma loader_batches_cover_the_order_witness :
  let dl := mkDataLoader (mkSubset sample_dataset [3; 1; 0]) 2 false in
  let n := Subset_len (dl_dataset dl) in
  let batches := DataLoader_batches (H := toy_torch) dl 0 in
  length batches = DataLoader_len dl /\
  Forall (fun b => (0 < length b <= dl_batch_size dl)%nat) batches /\
  concat batches =
    (if dl_shuffle dl then map (randperm (Torch := toy_torch) 0 n) (seq 0 n)
     else seq 0 n) /\
  length (concat batches) = n.
Proof.
  apply (loader_batches_cover_the_order (H := toy_torch)
           (mkDataLoader (mkSubset sample_dataset [3; 1; 0]) 2 false) 0).
  simpl. lia.
Defined.

Section Loops.
Context `{Platform} `{Torch}.

Lemma train_batch_fails train_loader st idxs :
  exists e, train_batch train_loader st idxs = Raise e.
Proof.
  unfold train_batch. destruct st as [[m o] l].
  destruct (DataLoader_fetch train_loader idxs) as [batch|e] eqn:Hbatch;
    [|by exists e].
  exists ValueError. unfold_bind. by rewrite (fetch_unpack3 _ _ _ Hbatch).
Qed.

Lemma eval_batch_fails smoke_model test_loader acc idxs :
  exists e, eval_batch smoke_model test_loader acc idxs = Raise e.
Proof.
  unfold eval_batch. destruct acc as [ls ps].
  destruct (DataLoader_fetch test_loader idxs) as [batch|e] eqn:Hbatch;
    [|by exists e].
  exists ValueError. unfold_bind. by rewrite (fetch_unpack3 _ _ _ Hbatch).
Qed.

Lemma no_batches_len dl draw :
  DataLoader_batches dl draw = [] -> DataLoader_len dl = 0%nat.
Proof.
  intros Hnone. destruct (dl_batch_size dl) as [|size] eqn:Hsize.
  - unfold DataLoader_len. rewrite Hsize. done.
  - rewrite <- (DataLoader_len_batches dl draw) by lia. by rewrite Hnone.
Qed.

Lemma train_epoch_fails train_loader st epoch :
  exists e, train_epoch train_loader st epoch = Raise e.
Proof.
  unfold train_epoch. destruct st as [[m o] out].
  destruct (DataLoader_batches train_loader (S epoch)) as [|idxs rest] eqn:Hb.
  - eexists. cbn [for_each]. unfold_bind.
    rewrite (no_batches_len _ _ Hb). reflexivity.
  - cbn [for_each].
    destruct (train_batch_fails train_loader (m, o, lit_0_0) idxs) as [e He].
    exists e. unfold_bind. by rewrite He.
Qed.

Lemma training_loop_fails train_loader st :
  exists e, training_loop train_loader st = Raise e.
Proof.
  unfold training_loop.
  change (seq 0 num_epochs) with (0%nat :: seq 1 9). cbn [for_each].
  destruct (train_epoch_fails train_loader st 0%nat) as (e & He).
  exists e. unfold_bind. by rewrite He.
Qed.

Lemma training_loop_first_batch train_loader st idxs rest :
  DataLoader_batches train_loader 1 = idxs :: rest ->
  training_loop train_loader st =
  Raise match DataLoader_fetch train_loader idxs with
        | Ok _ => ValueError
        | Raise e' => e'
        end.
Proof.
  intros Hb. unfold training_loop.
  change (seq 0 num_epochs) with (0%nat :: seq 1 9). cbn [for_each].
  unfold train_epoch. destruct st as [[m o] out]. rewrite Hb. cbn [for_each].
  assert (Hstep : train_batch train_loader (m, o, lit_0_0) idxs =
                  Raise match DataLoader_fetch train_loader idxs with
                        | Ok _ => ValueError
                        | Raise e' => e'
                        end).
  { unfold train_batch.
    destruct (DataLoader_fetch train_loader idxs) as [batch|e'] eqn:Hbatch;
      [|done].
    unfold_bind. by rewrite (fetch_unpack3 _ _ _ Hbatch). }
  rewrite Hstep. by unfold_bind.
Qed.
End Loops.

Lemma shuffled_loader_has_batches `{Torch} dataset size loader draw :
  DataLoader_init dataset size true = Ok loader ->
  exists idxs rest,
    DataLoader_batches loader draw = idxs :: rest /\
    idxs <> [] /\ (0 < DataLoader_len loader)%nat.
Proof.
  intros Hinit.
  destruct (DataLoader_init_shuffle _ _ _ Hinit) as (-> & Hn & Hsize).
  assert (Hlen : length (DataLoader_batches
                           (mkDataLoader dataset size true) draw)
                 = DataLoader_len (mkDataLoader dataset size true))
    by (apply DataLoader_len_batches; simpl; lia).
  revert Hlen. unfold DataLoader_batches. cbn [dl_dataset dl_batch_size dl_shuffle].
  destruct (Subset_len dataset) as [|n] eqn:Hds; [lia|].
  destruct size as [|size]; [lia|].
  rewrite <- cons_seq. cbn [map batched take]. intros <-.
  eexists _, _. split; [reflexivity|]. split; [done | simpl; lia].
Qed.

(** X12: the training loop never finishes an epoch (lines 98, 113-136).
    A train loader that line 98 builds shuffles, so its split is not empty
    and it has a first batch; the loop ends in that batch, with the error of
    fetching it or, when it is fetched, with the [ValueError] of the
    three-way unpacking.  No average loss is printed, and the division of
    line 135, whose divisor is positive, is not reached. *)
Theorem training_loop_never_completes `{Platform} `{Torch} train_dataset size
    train_loader st :
  DataLoader_init train_dataset size true = Ok train_loader ->
  exists idxs rest,
    DataLoader_batches train_loader 1 = idxs :: rest /\
    idxs <> [] /\
    (0 < DataLoader_len train_loader)%nat /\
    training_loop train_loader st =
      Raise match DataLoader_fetch train_loader idxs with
            | Ok _ => ValueError
            | Raise e' => e'
            end.
Proof.
  intros Hinit.
  destruct (shuffled_loader_has_batches _ _ _ 1%nat Hinit)
    as (idxs & rest & Hb & Hne & Hlen).
  exists idxs, rest. split; [done|]. split; [done|]. split; [done|].
  by apply training_loop_first_batch with rest.
Qed.

Lemma training_loop_never_completes_witness :
  let train_loader :=
    mkDataLoader (mkSubset sample_tensor_dataset [3; 1; 0]) 2 true in
  exists idxs rest,
    DataLoader_batches (H := toy_torch) train_loader 1 = idxs :: rest /\
    idxs <> [] /\
    (0 < DataLoader_len train_loader)%nat /\
    training_loop (H := posix_host) (H0 := toy_torch) train_loader
      (Smoke_model_init init_stream 1 4, tt, []) =
      Raise match DataLoader_fetch (H := posix_host) train_loader idxs with
            | Ok _ => ValueError
            | Raise e' => e'
            end.
Proof.
  apply (training_loop_never_completes (H := posix_host) (H0 := toy_torch)
           (mkSubset sample_tensor_dataset [3; 1; 0]) 2
           (mkDataLoader (mkSubset sample_tensor_dataset [3; 1; 0]) 2 true)
           (Smoke_model_init init_stream 1 4, tt, [])).
  reflexivity.
Defined.

(** X13: the evaluation loop never collects anything (lines 139-155).
    Whatever it returns normally is the pair of two empty lists, and that
    only for a test loader without batches; with any batch the loop
    raises. *)
Theorem evaluation_loop_collects_nothing `{Platform} `{Torch} smoke_model
    test_loader result :
  evaluation_loop smoke_model test_loader = Ok result ->
  result = ([], []) /\ DataLoader_batches test_loader 0 = [].
Proof.
  unfold evaluation_loop.
  destruct (DataLoader_batches test_loader 0) as [|idxs rest]; cbn [for_each].
  - by intros [= <-].
  - destruct (eval_batch_fails smoke_model test_loader ([], []) idxs) as [e He].
    unfold_bind. by rewrite He.
Qed.

Lemma evaluation_loop_collects_nothing_witness :
  ([], []) = ([] : list (list float32), [] : list (list bool)) /\
  DataLoader_batches (H := toy_torch)
    (mkDataLoader (mkSubset sample_dataset []) batch_size false) 0 = [].
Proof.
  apply (evaluation_loop_collects_nothing (H := posix_host) (H0 := toy_torch)
           (Smoke_model_init init_stream 1 4)
           (mkDataLoader (mkSubset sample_dataset []) batch_size false)).
  reflexivity.
Defined.

(** X14: the script cannot run to its metrics (lines 91-155).  On every
    host and with every tensor library, the run from reading the label file
    to the end of the evaluation loop ends in an exception. *)
Theorem script_never_completes `{Platform} `{Torch} :
  exists e, script = Raise e.
Proof.
  unfold script. unfold_bind.
  destruct (read_lines labels_file) as [lines|e]; [|by exists e].
  destruct (MultiLabelImageDataset_init images_dir lines None 4)
    as [dataset|e]; [|by exists e].
  destruct (split_sizes _) as [[[train val] test]|e]; [|by exists e].
  destruct (random_split dataset [train; val; test]) as [parts|e];
    [|by exists e].
  destruct parts as [|s1 [|s2 [|s3 [|s4 parts]]]]; try by exists ValueError.
  destruct (DataLoader_init s1 batch_size true) as [train_loader|e];
    [|by exists e].
  destruct (DataLoader_init s2 batch_size false) as [val_loader|e];
    [|by exists e].
  destruct (DataLoader_init s3 batch_size false) as [test_loader|e];
    [|by exists e].
  destruct (training_loop_fails
              train_loader
              (Smoke_model_init init_stream hidden_dim script_num_classes,
               Adam_init (Smoke_model_init init_stream hidden_dim
                            script_num_classes), []))
    as (e & He).
  exists e. by rewrite He.
Qed.

(** ** Batches of a dataset built without a transform *)

Section Untransformed.
Context `{Platform}.

Lemma getitem_untransformed self idx v :
  transform self = None ->
  MultiLabelImageDataset_getitem self idx = Ok v ->
  exists image label_vector,
    v = PyTuple [PyImage image; PyTensor label_vector].
Proof.
  intros Htr. unfold MultiLabelImageDataset_getitem. rewrite Htr. unfold_bind.
  destruct (list_getitem (images_path self) idx); [|done].
  destruct (list_getitem (images_labels self) idx); [|done].
  destruct (Image_open_RGB a) as [image|]; [|done].
  destruct (make_label_vector self a0) as [lv|]; [|done].
  intros [= <-]. by exists image, lv.
Qed.

Lemma transposed_pairs batch :
  Forall (fun v => exists a b, v = PyTuple [a; b]) batch ->
  exists col1 col2, transposed 2 batch = Ok [col1; col2].
Proof.
  induction 1 as [|v batch (a & b & ->) _ (col1 & col2 & IH)]; simpl.
  - by exists [], [].
  - rewrite IH. unfold_bind. simpl. by exists (a :: col1), (b :: col2).
Qed.

Lemma collate_raw_images samples :
  samples <> [] ->
  Forall (fun v => exists image label_vector,
            v = PyTuple [PyImage image; PyTensor label_vector]) samples ->
  default_collate samples = Raise TypeError.
Proof.
  intros Hne Hall. destruct Hall as [|v rest (image & lv & ->) Hrest]; [done|].
  unfold default_collate. simpl.
  destruct (transposed_pairs rest) as (col1 & col2 & ->).
  { eapply Forall_impl; [exact Hrest|]. intros v (i & l & ->). eauto. }
  by unfold_bind.
Qed.
End Untransformed.

(** X15: batches of raw images cannot be collated (lines 66-69, 91, 98).
    The script builds its dataset without a transform, so the accessor
    returns the decoded image itself; when every sample of a non-empty batch
    loads, collating the batch raises [TypeError], and the batch is never
    handed to the loop. *)
Theorem untransformed_batch_raises_TypeError `{Platform} (loader : DataLoader)
    (idxs : list nat) samples :
  transform (sub_dataset (dl_dataset loader)) = None ->
  idxs <> [] ->
  map_result (fun i => Subset_getitem (dl_dataset loader) (Z.of_nat i)) idxs
    = Ok samples ->
  DataLoader_fetch loader idxs = Raise TypeError.
Proof.
  intros Htr Hne Hsamples. unfold DataLoader_fetch. rewrite Hsamples.
  unfold_bind. apply collate_raw_images.
  - intros ->. apply map_result_length in Hsamples. by destruct idxs.
  - eapply map_result_Forall; [|exact Hsamples]. simpl.
    intros i v. unfold Subset_getitem. unfold_bind.
    destruct (list_getitem _ _); [|done].
    by apply getitem_untransformed.
Qed.

Lemma untransformed_batch_raises_TypeError_witness :
  DataLoader_fetch (H := posix_host)
    (mkDataLoader (mkSubset sample_dataset [3; 1; 0]) 2 false) [0; 1]%nat
  = Raise TypeError.
Proof.
  eapply (untransformed_batch_raises_TypeError (H := posix_host)
            (mkDataLoader (mkSubset sample_dataset [3; 1; 0]) 2 false)
            [0; 1]%nat); [reflexivity | discriminate | reflexivity].
Defined.

(** ** The classifier head on other inputs, and sample by sample *)

(** X16: embeddings of another width are rejected (lines 76, 80-82).  For
    two embeddings of one shape whose last dimension is not 512, [forward]
    raises [RuntimeError] in the first layer. *)
Theorem forward_rejects_other_widths self hidden classes lead (d : nat) a b :
  Smoke_model_dims self hidden classes ->
  shape a = lead ++ [d] -> shape b = lead ++ [d] -> d <> 512%nat ->
  Smoke_model_forward self a b = Raise RuntimeError.
Proof.
  intros [(Hin & _) _] Ha Hb Hd.
  destruct (torch_mul_shape a b _ Ha Hb) as (combined & Hmul & Hc).
  unfold Smoke_model_forward. rewrite Hmul. unfold_bind.
  unfold Linear_forward. rewrite Hc, rev_unit, Hin.
  by destruct (Nat.eqb_spec d 512).
Qed.

Lemma forward_rejects_other_widths_witness :
  Smoke_model_forward (Smoke_model_init (fun _ => f32_half) 2 4)
    (mkTensor [1; 3]%nat [f32_one; f32_one; f32_one])
    (mkTensor [1; 3]%nat [f32_half; f32_half; f32_half])
  = Raise RuntimeError.
Proof.
  apply (forward_rejects_other_widths
           (Smoke_model_init (fun _ => f32_half) 2 4) 2 4 [1%nat] 3);
    [apply Smoke_model_init_dims | reflexivity | reflexivity | lia].
Defined.

Lemma zip_with_concat {A B C : Type} (f : A -> B -> C) xs ys :
  Forall2 (fun x y => length x = length y) xs ys ->
  zip_with f (concat xs) (concat ys) = concat (zip_with (zip_with f) xs ys).
Proof.
  induction 1 as [|x y xs ys Hxy _ IH]; simpl; [done|].
  by rewrite zip_with_app, IH.
Qed.

Lemma rows_concat {A : Type} (n : nat) (rs : list (list A)) :
  Forall (fun r => length r = n) rs ->
  rows n (length rs) (concat rs) = rs.
Proof.
  induction 1 as [|r rs Hr _ IH]; simpl; [done|].
  rewrite take_app_length' by done. rewrite drop_app_length' by done.
  by rewrite IH.
Qed.

Lemma map_concat_map {A B C : Type} (g : B -> C) (f : A -> list B) xs :
  map g (concat (map f xs)) = concat (map (fun x => map g (f x)) xs).
Proof.
  induction xs as [|x xs IH]; simpl; [done|]. by rewrite map_app, IH.
Qed.

Lemma map_zip_with {A B C D : Type} (g : C -> D) (f : A -> B -> C) xs ys :
  map g (zip_with f xs ys) = zip_with (fun x y => g (f x y)) xs ys.
Proof.
  revert ys. induction xs as [|x xs IH]; intros [|y ys]; simpl; try done.
  by rewrite IH.
Qed.

Lemma concat_rows_length {A : Type} (n : nat) (rs : list (list A)) :
  Forall (fun r => length r = n) rs ->
  length (concat rs) = (length rs * n)%nat.
Proof.
  induction 1 as [|r rs Hr _ IH]; simpl; [done|].
  rewrite length_app, IH, Hr. lia.
Qed.

Lemma Linear_forward_rows l (i o : nat) (rs : list (list float32)) :
  Linear_dims l i o -> Forall (fun r => length r = i) rs ->
  Linear_forward l (mkTensor [length rs; i] (concat rs)) =
  Ok (mkTensor [length rs; o] (concat (map (linear_row l) rs))).
Proof.
  intros (Hi & Ho & _) Hrs. unfold Linear_forward. simpl.
  rewrite Hi, Nat.eqb_refl, Ho, Nat.mul_1_r.
  by rewrite rows_concat.
Qed.

(** X17: [forward] works sample by sample (lines 80-85).  On a batch whose
    rows are the samples' embeddings, the output is, row by row, what the
    head computes from that sample's two embeddings alone: no entry depends
    on another sample of the batch. *)
Theorem forward_is_per_sample self hidden classes
    (texts images : list (list float32)) :
  Smoke_model_dims self hidden classes ->
  Forall (fun r => length r = 512%nat) texts ->
  Forall (fun r => length r = 512%nat) images ->
  length texts = length images ->
  Smoke_model_forward self
    (mkTensor [length texts; 512%nat] (concat texts))
    (mkTensor [length texts; 512%nat] (concat images))
  = Ok (mkTensor [length texts; classes]
          (concat (zip_with (forward_row self) texts images))).
Proof.
  intros [H1 H2] Ht Hi Hlen. unfold Smoke_model_forward.
  rewrite torch_mul_same_shape; simpl;
    [| done
     | rewrite (concat_rows_length 512) by done; lia
     | rewrite (concat_rows_length 512) by done; lia].
  unfold_bind.
  assert (Hpairs : Forall2 (fun x y : list float32 => length x = length y)
                     texts images).
  { apply Forall2_same_length_lookup_2; [done|].
    intros j x y Hx Hy. rewrite Forall_lookup in Ht, Hi.
    rewrite (Ht _ _ Hx), (Hi _ _ Hy). done. }
  rewrite zip_with_concat by done.
  set (fused := zip_with (zip_with f32_mul) texts images).
  assert (Hfl : length fused = length texts).
  { subst fused. rewrite length_zip_with. lia. }
  assert (Hfused : Forall (fun r => length r = 512%nat) fused).
  { subst fused. apply Forall_lookup. intros j r Hr.
    apply lookup_zip_with_Some in Hr as (x & y & -> & Hx & Hy).
    rewrite Forall_lookup in Ht, Hi.
    rewrite length_zip_with, (Ht _ _ Hx), (Hi _ _ Hy). lia. }
  rewrite <- Hfl. rewrite (Linear_forward_rows _ 512 hidden) by done.
  unfold nn_ReLU. simpl. rewrite map_concat_map.
  set (act := map (fun x => map relu_entry (linear_row (l1 self) x)) fused).
  assert (Hal : length act = length fused) by (subst act; by rewrite length_map).
  assert (Hact : Forall (fun r => length r = hidden) act).
  { subst act. apply Forall_fmap, Forall_forall. intros r _. simpl.
    destruct H1 as (_ & _ & Hw & Hb).
    unfold linear_row. rewrite length_map, length_zip_with. lia. }
  rewrite <- Hal. rewrite (Linear_forward_rows _ hidden classes) by done.
  rewrite Hal, Hfl. do 3 f_equal.
  subst act fused. rewrite map_map, map_zip_with. done.
Qed.

Lemma forward_is_per_sample_witness :
  let self := Smoke_model_init (fun _ => f32_half) 2 4 in
  let texts := [replicate 512 f32_one; replicate 512 f32_half] in
  let images := [replicate 512 f32_half; replicate 512 f32_zero] in
  Smoke_model_forward self
    (mkTensor [length texts; 512%nat] (concat texts))
    (mkTensor [length texts; 512%nat] (concat images))
  = Ok (mkTensor [length texts; 4%nat]
          (concat (zip_with (forward_row self) texts images))).
Proof.
  apply (forward_is_per_sample (Smoke_model_init (fun _ => f32_half) 2 4) 2 4
           [replicate 512 f32_one; replicate 512 f32_half]
           [replicate 512 f32_half; replicate 512 f32_zero]);
    [apply Smoke_model_init_dims
    | repeat constructor | repeat constructor | reflexivity].
Defined.

(** X18: the size of the head (lines 74-78, 109).  A model built for
    [hidden] hidden units and [classes] classes has
    [512 * hidden + hidden + hidden * classes + classes] trainable scalars:
    132356 for the script's 256 and 4. *)
Theorem head_parameter_count gen hidden classes :
  Smoke_model_parameters (Smoke_model_init gen hidden classes) =
    (512 * hidden + hidden + hidden * classes + classes)%nat /\
  Z.of_nat
    (Smoke_model_parameters (Smoke_model_init gen hidden_dim script_num_classes))
    = 132356.
Proof.
  assert (Hcount : forall pos i o,
            Linear_parameters (nn_Linear gen pos i o) = (o * i + o)%nat).
  { intros pos i o. unfold Linear_parameters, nn_Linear. simpl.
    rewrite (concat_map_length _ _ i) by (intros; by rewrite length_map, length_seq).
    by rewrite length_map, !length_seq. }
  unfold Smoke_model_parameters, Smoke_model_init. cbn [l1 l2].
  rewrite !Hcount. split; [lia|].
  unfold hidden_dim, script_num_classes. lia.
Qed.

(** ** The collapse to one class for the confusion matrix *)

Lemma class_present_cases labels j :
  class_present labels j =
  match j with
  | 0%nat => bool_decide ("fire" ∈ labels)
  | 1%nat => bool_decide ("smoke" ∈ labels)
  | 2%nat => bool_decide ("cloud" ∈ labels)
  | 3%nat => bool_decide ("none" ∈ labels)
  | _ => false
  end.
Proof. by destruct j as [|[|[|[|j]]]]. Qed.

(** X19: the true class of the confusion matrix (lines 61-64, 169).  The
    [argmax] of a sample's label vector is the lowest class index among the
    sample's labels, and 0, the index of "fire", when the sample has no
    known label at all. *)
Theorem argmax_of_label_vector (self : MultiLabelImageDataset)
    (labels : list string) :
  label_map self = label_map_literal -> num_classes self = 4 ->
  exists lv k,
    make_label_vector self labels = Ok lv /\
    np_argmax f32_argmax_gt (data lv) = Ok k /\
    (k < 4)%nat /\
    (forall j, (j < k)%nat -> class_present labels j = false) /\
    (class_present labels k = true \/
     (k = 0%nat /\ forall j, class_present labels j = false)).
Proof.
  intros Hmap Hnc. rewrite (make_label_vector_4 _ _ Hmap Hnc).
  pose proof (class_present_cases labels) as Hcp.
  cbn [data]. unfold vocabulary, hot. cbn [map].
  destruct (bool_decide ("fire" ∈ labels)),
           (bool_decide ("smoke" ∈ labels)),
           (bool_decide ("cloud" ∈ labels)),
           (bool_decide ("none" ∈ labels));
    eexists _, _; (split; [reflexivity|]);
    (split; [vm_compute; reflexivity|]);
    (split; [lia|]);
    (split; [intros [|[|[|[|j]]]] Hj; rewrite Hcp; (done || lia)|]);
    rewrite Hcp;
    first [ by left
          | right; split; [done|]; intros [|[|[|[|j]]]]; by rewrite Hcp ].
Qed.

Lemma argmax_of_label_vector_witness :
  exists lv k,
    make_label_vector (mkDataset [] [] None 4 label_map_literal)
      ["cloud"; "smoke"] = Ok lv /\
    np_argmax f32_argmax_gt (data lv) = Ok k /\
    (k < 4)%nat /\
    (forall j, (j < k)%nat -> class_present ["cloud"; "smoke"] j = false) /\
    (class_present ["cloud"; "smoke"] k = true \/
     (k = 0%nat /\ forall j, class_present ["cloud"; "smoke"] j = false)).
Proof.
  apply (argmax_of_label_vector (mkDataset [] [] None 4 label_map_literal)
           ["cloud"; "smoke"]); reflexivity.
Defined.

Lemma argmax_from_true best_i i row :
  argmax_from bool_argmax_gt best_i true i row = best_i.
Proof.
  revert i. induction row as [|x row IH]; intros i; simpl; [done|].
  unfold bool_argmax_gt. rewrite andb_false_r. apply IH.
Qed.

Lemma argmax_from_false row : forall best_i i,
  (argmax_from bool_argmax_gt best_i false i row = best_i /\
   Forall (fun b => b = false) row) \/
  (exists m, argmax_from bool_argmax_gt best_i false i row = (i + m)%nat /\
             row !! m = Some true /\
             forall j, (j < m)%nat -> row !! j = Some false).
Proof.
  induction row as [|x row IH]; intros best_i i; simpl.
  - left. by split.
  - destruct x; simpl.
    + right. exists 0%nat. rewrite argmax_from_true.
      split; [lia|]. split; [done|]. intros j Hj. lia.
    + destruct (IH best_i (S i)) as [[Hk Hall]|(m & Hk & Hm & Hlow)].
      * left. split; [done|]. by constructor.
      * right. exists (S m). split; [lia|]. split; [done|].
        intros [|j] Hj; [done|]. simpl. apply Hlow. lia.
Qed.

(** X20: the predicted class of the confusion matrix (lines 152-153, 169).
    The [argmax] of a row of thresholded predictions is the lowest class
    predicted present, and class 0 when no class is predicted. *)
Theorem argmax_of_predictions (row : list bool) :
  row <> [] ->
  exists k,
    np_argmax bool_argmax_gt row = Ok k /\
    (k < length row)%nat /\
    (forall j, (j < k)%nat -> row !! j = Some false) /\
    (row !! k = Some true \/
     (k = 0%nat /\ Forall (fun b => b = false) row)).
Proof.
  destruct row as [|x row]; [done|]. intros _. simpl.
  destruct x.
  - exists 0%nat. rewrite argmax_from_true.
    split; [done|]. split; [lia|]. split; [intros j Hj; lia | by left].
  - destruct (argmax_from_false row 0 1) as [[Hk Hall]|(m & Hk & Hm & Hlow)].
    + exists 0%nat. split; [by rewrite Hk|]. split; [lia|].
      split; [intros j Hj; lia|]. right. split; [done|]. by constructor.
    + exists (S m). split; [by rewrite Hk|].
      split; [apply lookup_lt_Some in Hm; lia|].
      split; [|by left].
      intros [|j] Hj; [done|]. simpl. apply Hlow. lia.
Qed.

Lemma argmax_of_predictions_witness :
  exists k,
    np_argmax bool_argmax_gt [false; false; true; true] = Ok k /\
    (k < length [false; false; true; true])%nat /\
    (forall j, (j < k)%nat -> [false; false; true; true] !! j = Some false) /\
    ([false; false; true; true] !! k = Some true \/
     (k = 0%nat /\ Forall (fun b => b = false) [false; false; true; true])).
Proof. apply (argmax_of_predictions [false; false; true; true]). done. Defined.
